(** * ftgbot: the moderation bot of [main.py]

    A shallow embedding of the punishment ledger, the escalation of
    violations, the link and attachment checks and the administrator
    commands of [src/main.py], with the properties the specification
    states about them.

    Conventions.
    - Python [str] values are [string]s; the classification of characters
      (white space, letters, case) follows Python on ASCII text.
    - Python [int] values are [Z]; instants are seconds since the epoch.
    - The [users] table is a [gmap Z User]; every call the bot makes on
      the chat platform is appended to a trace, oldest call first.
    - Calls on the platform and on the database are taken to succeed. *)

From Stdlib Require Import ZArith Ascii String Lia.
From stdpp Require Import base option list gmap strings pretty.

Local Open Scope Z_scope.

(* ===================================================================== *)
(** ** Python strings                                                     *)
(* ===================================================================== *)

Module Py.

(** The result of an expression that may raise [ValueError]. *)
Inductive res (A : Type) : Type :=
| Ok (a : A)
| ValueError.
Arguments Ok {A} a.
Arguments ValueError {A}.

Definition code (c : ascii) : N := N_of_ascii c.

Definition in_range (lo hi : N) (c : ascii) : bool :=
  ((lo <=? code c) && (code c <=? hi))%N.

(** [str.isspace] and the class [\s] of [re] on ASCII: TAB..CR, FS..US
    and the space. Python counts further characters beyond ASCII as
    white space (U+0085, U+00A0, U+2028, ...); the embedding follows it
    on ASCII text only, and the properties of the scan and of [strip]
    are stated for texts that satisfy [isascii]. *)
Definition isspace (c : ascii) : bool :=
  in_range 9 13 c || in_range 28 32 c.

Definition isupper (c : ascii) : bool := in_range 65 90 c.
Definition isalpha (c : ascii) : bool := in_range 65 90 c || in_range 97 122 c.
Definition isdigit (c : ascii) : bool := in_range 48 57 c.

Definition lower_char (c : ascii) : ascii :=
  if isupper c then ascii_of_N (code c + 32) else c.

(** [s.lower()] on ASCII text: the letters A..Z are lowered; the cased
    characters beyond ASCII, which [str.lower] lowers as well, are left
    as they are, so the function is [str.lower] on texts that satisfy
    [isascii]. *)
Fixpoint lower (s : string) : string :=
  match s with
  | EmptyString => EmptyString
  | String c r => String (lower_char c) (lower r)
  end.

Definition nonempty (s : string) : bool :=
  match s with EmptyString => false | String _ _ => true end.

(** [s.startswith(p)], returning what follows the prefix. *)
Fixpoint drop_prefix (p s : string) : option string :=
  match p, s with
  | EmptyString, _ => Some s
  | String a p', String b s' => if Ascii.eqb a b then drop_prefix p' s' else None
  | String _ _, EmptyString => None
  end.

Definition startswith (s p : string) : bool :=
  match drop_prefix p s with Some _ => true | None => false end.

(** [s.partition(c)] for a separator of one character: the text before
    the first [c], whether [c] was found, the text after it. *)
Fixpoint partition (c : ascii) (s : string) : string * bool * string :=
  match s with
  | EmptyString => (EmptyString, false, EmptyString)
  | String d r =>
      if Ascii.eqb d c then (EmptyString, true, r)
      else let '(a, f, b) := partition c r in (String d a, f, b)
  end.

(** [s.rpartition(c)]: split at the last [c]; when [c] is absent the
    whole string is the third component. *)
Fixpoint rpartition (c : ascii) (s : string) : string * bool * string :=
  match s with
  | EmptyString => (EmptyString, false, EmptyString)
  | String d r =>
      let '(a, f, b) := rpartition c r in
      if f then (String d a, true, b)
      else if Ascii.eqb d c then (EmptyString, true, r)
      else (EmptyString, false, String d b)
  end.

(** [c in s] for a character [c]. *)
Fixpoint contains (c : ascii) (s : string) : bool :=
  match s with
  | EmptyString => false
  | String d r => Ascii.eqb d c || contains c r
  end.

(** [s.lstrip(chars)] with the characters given as a predicate. *)
Fixpoint lstrip (p : ascii -> bool) (s : string) : string :=
  match s with
  | EmptyString => EmptyString
  | String c r => if p c then lstrip p r else s
  end.

(** The longest prefix without a character satisfying [p]. *)
Fixpoint take_until (p : ascii -> bool) (s : string) : string :=
  match s with
  | EmptyString => EmptyString
  | String c r => if p c then EmptyString else String c (take_until p r)
  end.

Fixpoint forall_chars (p : ascii -> bool) (s : string) : bool :=
  match s with
  | EmptyString => true
  | String c r => p c && forall_chars p r
  end.

(** [s.replace(c, "")] for a character [c]. *)
Fixpoint remove_char (c : ascii) (s : string) : string :=
  match s with
  | EmptyString => EmptyString
  | String d r => if Ascii.eqb d c then remove_char c r else String d (remove_char c r)
  end.

(** [s.replace("www.", "")]: every occurrence, scanning from the left,
    occurrences not overlapping. *)
Fixpoint replace_www (s : string) : string :=
  match s with
  | String "w" (String "w" (String "w" (String "." r))) => replace_www r
  | String c r => String c (replace_www r)
  | EmptyString => EmptyString
  end.

(** [sep.join(l)] *)
Fixpoint join (sep : string) (l : list string) : string :=
  match l with
  | [] => ""
  | [x] => x
  | x :: r => x +:+ sep +:+ join sep r
  end.

(** [s.rfind(c)]: the index of the last [c], or -1. *)
Fixpoint rfind_from (i : Z) (c : ascii) (s : string) : Z :=
  match s with
  | EmptyString => -1
  | String d r =>
      let j := rfind_from (i + 1) c r in
      if 0 <=? j then j else if Ascii.eqb d c then i else -1
  end.

Definition rfind (c : ascii) (s : string) : Z := rfind_from 0 c s.

(** The slice [s[i:j]] for [0 <= i]. *)
Definition slice (s : string) (i j : Z) : string :=
  substring (Z.to_nat i) (Z.to_nat (j - i)) s.

Definition len (s : string) : Z := Z.of_nat (String.length s).

(** [s.rstrip()] and [s.strip()] *)
Fixpoint rstrip (s : string) : string :=
  match s with
  | EmptyString => EmptyString
  | String c r =>
      match rstrip r with
      | EmptyString => if isspace c then EmptyString else String c EmptyString
      | r' => String c r'
      end
  end.

Definition strip (s : string) : string := rstrip (lstrip isspace s).

(** [str(n)] *)
Definition str (n : Z) : string := pretty n.

(** *** [int(s)] in base 10

    An optional sign, then digits, single underscores allowed between
    two digits. Only the ASCII digits are read: [int] also takes the
    other decimal digits of Unicode and white space around the number,
    so the function is [int] on the words that satisfy [isword], and a
    [None] stands for the [ValueError] there. *)
Definition digit_val (c : ascii) : Z := Z.of_N (code c) - 48.

Fixpoint digits (acc : Z) (after_digit : bool) (s : string) : option Z :=
  match s with
  | EmptyString => if after_digit then Some acc else None
  | String c r =>
      if isdigit c then digits (10 * acc + digit_val c) true r
      else if Ascii.eqb c "_" && after_digit then digits acc false r
      else None
  end.

Definition int (s : string) : option Z :=
  match s with
  | String "-" r => Z.opp <$> digits 0 false r
  | String "+" r => digits 0 false r
  | _ => digits 0 false s
  end.

(** [s.isascii()] *)
Definition isascii (s : string) : bool :=
  forall_chars (fun c => (code c <? 128)%N) s.

(** A word of a command line as [context.args] holds them: ASCII
    characters, none of them white space. *)
Definition isword (s : string) : bool :=
  forall_chars (fun c => (code c <? 128)%N && negb (isspace c)) s.

End Py.

(* ===================================================================== *)
(** ** Library functions the bot calls                                    *)
(* ===================================================================== *)

(** [re.findall(r'https?://\S+', text)]: the matches from left to right,
    not overlapping. A match starts where the text reads [http://] or
    [https://] followed by a character that is not white space; [\S+] is
    greedy, and the characters of the prefix are not white space
    themselves, so the match is the run of such characters from its
    start. *)
Module Re.

Definition nonspace_head (s : string) : bool :=
  match s with
  | EmptyString => false
  | String c _ => negb (Py.isspace c)
  end.

Definition url_at (s : string) : bool :=
  match Py.drop_prefix "https://" s with
  | Some r => nonspace_head r
  | None =>
      match Py.drop_prefix "http://" s with
      | Some r => nonspace_head r
      | None => false
      end
  end.

(** [in_match] holds while the scan is inside the previous match. *)
Fixpoint scan (in_match : bool) (s : string) : list string :=
  match s with
  | EmptyString => []
  | String c r =>
      if in_match then scan (negb (Py.isspace c)) r
      else if url_at s then Py.take_until Py.isspace s :: scan true r
      else scan false r
  end.

Definition findall_urls (text : string) : list string := scan false text.

End Re.

(** [urllib.parse.urlparse(u).hostname], after [urlsplit] and the
    [hostname] property of its result. What the interpreter accepts
    between square brackets depends on its version and is a parameter,
    [check_bracketed_netloc]; the URL is first stripped of leading C0
    control characters and spaces, as [urlsplit] does in the current
    sources of the library. [urlsplit] also rejects, with a
    [ValueError], a netloc beyond ASCII whose NFKC form holds one of
    [/?#@:]; that check passes every ASCII netloc and is left out, so
    the functions are those of the library on URLs that satisfy
    [Py.isascii]. *)
Module Urllib.

Definition scheme_char (c : ascii) : bool :=
  Py.isalpha c || Py.isdigit c
  || Ascii.eqb c "+" || Ascii.eqb c "-" || Ascii.eqb c ".".

Definition c0_control_or_space (c : ascii) : bool := (Py.code c <=? 32)%N.

Definition netloc_delim (c : ascii) : bool :=
  Ascii.eqb c "/" || Ascii.eqb c "?" || Ascii.eqb c "#".

(** The URL without its scheme: [url[i+1:]] when the text before the
    first colon is a scheme, the URL itself otherwise. *)
Definition strip_scheme (url : string) : string :=
  let '(before, found, rest) := Py.partition ":" url in
  match before with
  | String c0 _ =>
      if found && Py.isalpha c0 && Py.forall_chars scheme_char before
      then rest else url
  | EmptyString => url
  end.

Section WithInterpreter.

Variable check_bracketed_netloc : string -> bool.

(** The [netloc] of [urlsplit(url)]. *)
Definition netloc (url : string) : Py.res string :=
  let url := Py.lstrip c0_control_or_space url in
  let url := Py.remove_char "013" (Py.remove_char "010" (Py.remove_char "009" url)) in
  let url := strip_scheme url in
  match Py.drop_prefix "//" url with
  | Some r =>
      let netloc := Py.take_until netloc_delim r in
      let open := Py.contains "[" netloc in
      let close := Py.contains "]" netloc in
      if xorb open close then Py.ValueError
      else if open && close && negb (check_bracketed_netloc netloc)
      then Py.ValueError
      else Py.Ok netloc
  | None => Py.Ok ""
  end.

(** [_hostinfo[0]] *)
Definition hostinfo (netloc : string) : string :=
  let '(_, _, hostinfo) := Py.rpartition "@" netloc in
  let '(_, have_open_br, bracketed) := Py.partition "[" hostinfo in
  if have_open_br then
    let '(hostname, _, _) := Py.partition "]" bracketed in hostname
  else
    let '(hostname, _, _) := Py.partition ":" hostinfo in hostname.

(** The [hostname] property: [None] when empty, else lower case up to
    a zone separator. *)
Definition hostname_of_netloc (netloc : string) : option string :=
  match hostinfo netloc with
  | EmptyString => None
  | h =>
      let '(hostname, percent, zone) := Py.partition "%" h in
      Some (Py.lower hostname +:+ (if percent then "%" else "") +:+ zone)
  end.

Definition hostname (url : string) : Py.res (option string) :=
  match netloc url with
  | Py.Ok n => Py.Ok (hostname_of_netloc n)
  | Py.ValueError => Py.ValueError
  end.

End WithInterpreter.

End Urllib.

(** [os.path.splitext] of [posixpath], after [genericpath._splitext]
    with [sep = '/'], no [altsep] and [extsep = '.']. *)
Module Posixpath.

(** The loop that skips the leading dots of the file name: [true] when
    a character other than a dot stands before [dotIndex]. The count
    [n] is [dotIndex - filenameIndex]. *)
Fixpoint skip_leading_dots (p : string) (filenameIndex : Z) (n : nat) : bool :=
  match n with
  | O => false
  | S n' =>
      if negb (String.eqb (Py.slice p filenameIndex (filenameIndex + 1)) ".")
      then true
      else skip_leading_dots p (filenameIndex + 1) n'
  end.

Definition splitext (p : string) : string * string :=
  let sepIndex := Py.rfind "/" p in
  let dotIndex := Py.rfind "." p in
  if (sepIndex <? dotIndex)
     && skip_leading_dots p (sepIndex + 1) (Z.to_nat (dotIndex - (sepIndex + 1)))
  then (Py.slice p 0 dotIndex, Py.slice p dotIndex (Py.len p))
  else (p, "").

End Posixpath.

(* ===================================================================== *)
(** ** Data model                                                         *)
(* ===================================================================== *)

(** An element of the [history] column, built by [add_punishment]. *)
Record Entry := mkEntry {
  entry_id : Z;
  date : Z;
  type : string;
  reason : string;
  duration : Z;
  issued_by : string;
}.

(** A row of the [users] table, as [get_user] returns it. The table is
    keyed by [user_id]; the key travels with the record as a separate
    argument. *)
Record User := mkUser {
  join_date : Z;
  alias : string;
  warns : Z;
  bans : Z;
  history : list Entry;
}.

#[global] Instance Entry_eq_dec : EqDecision Entry.
Proof. solve_decision. Defined.

(** The environment variables read at start-up. *)
Record Config := mkConfig {
  FRONTEND_CHAT_ID : Z;
  ADMIN_GROUP_ID : Z;
  BOT_THREAD_ID : Z;
  LOGS_THREAD_ID : Z;
}.

(** [update.effective_message], with the fields the handlers read. *)
Record Message := mkMessage {
  message_id : Z;
  chat_id : Z;
  message_thread_id : option Z;
  from_id : Z;
  from_username : option string;
  from_first_name : string;
  text : option string;
  document_file_name : option string;
}.

(** [update.callback_query] *)
Record CallbackQuery := mkCallbackQuery {
  data : string;
  query_from_id : Z;
  query_message : Message;
}.

(** The texts the bot sends, one constructor for each template. *)
Inductive Text :=
| violation_log (uid : Z) (alias : string) (now : Z) (body : string)
| warn_notice (alias reason : string) (links exts : list string)
| mute_notice (alias : string)
| usage (command : string)
| bad_arguments
| bad_user_id
| ban_reply (target hours bans : Z)
| ban_log (target hours : Z) (reason : string)
| warn_reply (target warns : Z)
| warn_log (target : Z) (reason : string)
| no_warns
| unwarn_reply (warns : Z)
| unwarn_log (target warns : Z)
| mute_reply (target minutes : Z)
| mute_log (target minutes : Z) (reason : string)
| unmute_reply (target : Z)
| unmute_log (target : Z)
| links_keyboard (urls : list string)
| ask_url
| confirm_delete (url : string)
| link_deleted
| bad_url
| link_added (domain : string)
| help_text (links exts : list string).

(** The calls on the chat platform. *)
Inductive Call :=
| delete_message (chat message : Z)
| send_message (chat : Z) (thread : option Z) (t : Text)
| reply_text (chat message : Z) (t : Text)
| edit_text (chat message : Z) (t : Text)
| answer_callback_query
| restrict_chat_member (chat user : Z) (can_send_messages : bool) (until_date : option Z)
| ban_chat_member (chat user : Z)
| unban_chat_member (chat user : Z) (only_if_banned : bool).

#[global] Instance Text_eq_dec : EqDecision Text.
Proof. solve_decision. Defined.

#[global] Instance Call_eq_dec : EqDecision Call.
Proof. solve_decision. Defined.

(** A task made by [asyncio.create_task(schedule_unban(bot, user_id, hours))]
    that has not run yet; it sleeps until [wake_at]. *)
Record Task := mkTask {
  wake_at : Z;
  task_user_id : Z;
  task_hours : Z;
}.

#[global] Instance Task_eq_dec : EqDecision Task.
Proof. solve_decision. Defined.

(** The state the bot works on: the database, the two global lists, the
    administrators of the front-end chat as the platform reports them
    ([None] when the request fails), the calls made and the pending
    tasks. *)
Record World := mkWorld {
  users : gmap Z User;
  allowed_links : list string;
  ALLOWED_LINKS : list string;
  ALLOWED_EXTS : list string;
  administrators : option (list Z);
  trace : list Call;
  tasks : list Task;
}.

Definition set_users (m : gmap Z User) (w : World) : World :=
  mkWorld m (allowed_links w) (ALLOWED_LINKS w) (ALLOWED_EXTS w)
          (administrators w) (trace w) (tasks w).

Definition set_links (tbl cache : list string) (w : World) : World :=
  mkWorld (users w) tbl cache (ALLOWED_EXTS w)
          (administrators w) (trace w) (tasks w).

(** One call on the platform. *)
Definition call (c : Call) (w : World) : World :=
  mkWorld (users w) (allowed_links w) (ALLOWED_LINKS w) (ALLOWED_EXTS w)
          (administrators w) (trace w ++ [c]) (tasks w).

(** [asyncio.create_task] *)
Definition create_task (t : Task) (w : World) : World :=
  mkWorld (users w) (allowed_links w) (ALLOWED_LINKS w) (ALLOWED_EXTS w)
          (administrators w) (trace w) (tasks w ++ [t]).

Definition set_tasks (ts : list Task) (w : World) : World :=
  mkWorld (users w) (allowed_links w) (ALLOWED_LINKS w) (ALLOWED_EXTS w)
          (administrators w) (trace w) ts.

(* ===================================================================== *)
(** ** The ledger                                                         *)
(* ===================================================================== *)

Definition get_user (uid : Z) (w : World) : option User := users w !! uid.

(** [INSERT ... ON CONFLICT (user_id) DO NOTHING]. The column is a
    [BIGINT]: for an identifier outside [in_bigint] the statement fails
    and no row is made; the embedding follows the program for
    identifiers within that range, which are the ones the platform
    gives, and the properties of commands that take an identifier typed
    by an administrator assume [in_bigint]. *)
Definition create_user (now uid : Z) (alias : string) (w : World) : World :=
  match users w !! uid with
  | Some _ => w
  | None => set_users (<[uid := mkUser now alias 0 0 []]> (users w)) w
  end.

(** [UPDATE ... SET alias, warns, bans, history WHERE user_id = ...] *)
Definition update_user_record (uid : Z) (user : User) (w : World) : World :=
  match users w !! uid with
  | Some row =>
      set_users (<[uid := mkUser (join_date row) (alias user)
                                 (warns user) (bans user) (history user)]> (users w)) w
  | None => w
  end.

Definition bump (p_type : string) (user : User) : User :=
  if String.eqb p_type "warn" then
    mkUser (join_date user) (alias user)
           (warns user + 1) (bans user) (history user)
  else if String.eqb p_type "ban" then
    mkUser (join_date user) (alias user)
           (warns user) (bans user + 1) (history user)
  else user.

Definition append_entry (entry : Entry) (user : User) : User :=
  mkUser (join_date user) (alias user)
         (warns user) (bans user) (history user ++ [entry]).

Definition add_punishment (now uid : Z) (alias p_type reason : string)
    (duration : Z) (issued_by : string) (w : World) : User * World :=
  let entry := mkEntry now now p_type reason duration issued_by in
  let '(user, w) :=
    match get_user uid w with
    | Some user => (user, w)
    | None =>
        let w := create_user now uid alias w in
        (default (mkUser now alias 0 0 []) (get_user uid w), w)
    end in
  let user := append_entry entry (bump p_type user) in
  (user, update_user_record uid user w).

(** The loop of [unwarn_command]: [i] runs from [len(history) - 1] down
    to 0 and the first entry of type warn met is popped. [n] is [i + 1]. *)
Fixpoint pop_last_warn (n : nat) (h : list Entry) : list Entry :=
  match n with
  | O => h
  | S i =>
      match h !! i with
      | Some e => if String.eqb (type e) "warn" then delete i h else pop_last_warn i h
      | None => pop_last_warn i h
      end
  end.

(* ===================================================================== *)
(** ** The bot                                                            *)
(* ===================================================================== *)

Section Bot.

Variable cfg : Config.
Variable check_bracketed_netloc : string -> bool.

(** *** Automatic unban *)

(** The task [schedule_unban(bot, user_id, hours)] made at [now]:
    [asyncio.sleep] returns at once for a delay that is not positive.
    The loop keeps the delay as a float: the embedding follows the
    program for delays that a float holds exactly, [exact_delay]. *)
Definition schedule_unban (now uid hours : Z) : Task :=
  mkTask (now + Z.max 0 (hours * 3600)) uid hours.

(** The body of [schedule_unban] after the sleep. *)
Definition resume (t : Task) (w : World) : World :=
  call (unban_chat_member (FRONTEND_CHAT_ID cfg) (task_user_id t) true) w.

Definition due (now : Z) (t : Task) : Prop := wake_at t <= now.

#[global] Instance due_dec now t : Decision (due now t).
Proof. unfold due. apply _. Defined.

(** The event loop at [now]: every task whose sleep is over runs and
    is finished; the others stay pending. *)
Definition run_due (now : Z) (w : World) : World :=
  set_tasks (filter (fun t => ~ due now t) (tasks w))
            (foldl (fun w t => resume t w) w (filter (due now) (tasks w))).

(** *** Helpers *)

Fixpoint domains_of (urls : list string) : Py.res (list string) :=
  match urls with
  | [] => Py.Ok []
  | u :: rest =>
      match Urllib.hostname check_bracketed_netloc u with
      | Py.ValueError => Py.ValueError
      | Py.Ok h =>
          let host := default "" h in
          match domains_of rest with
          | Py.Ok domains => Py.Ok (Py.replace_www host :: domains)
          | Py.ValueError => Py.ValueError
          end
      end
  end.

Definition extract_domains (text : string) : Py.res (list string) :=
  domains_of (Re.findall_urls text).

(** *** Violations *)

Definition alias_of (msg : Message) : string :=
  match from_username msg with
  | Some (String c r) => "@" +:+ String c r
  | _ => from_first_name msg
  end.

Definition process_violation (now : Z) (msg : Message) (reason detail : string)
    (w : World) : World :=
  let alias := alias_of msg in
  let w := call (delete_message (chat_id msg) (message_id msg)) w in
  let body := match text msg with Some (String c r) => String c r | _ => detail end in
  let w := call (send_message (ADMIN_GROUP_ID cfg) (Some (LOGS_THREAD_ID cfg))
                   (violation_log (from_id msg) alias now body)) w in
  let record_warns := match get_user (from_id msg) w with
                      | Some record => warns record
                      | None => 0
                      end in
  if record_warns =? 0 then
    let w := call (send_message (chat_id msg) None
                     (warn_notice alias reason (ALLOWED_LINKS w) (ALLOWED_EXTS w))) w in
    snd (add_punishment now (from_id msg) alias "warn" reason 0 "bot" w)
  else
    let until := now + 3600 in
    let w := call (restrict_chat_member (chat_id msg) (from_id msg) false (Some until)) w in
    let w := snd (add_punishment now (from_id msg) alias "mute" reason 60 "bot" w) in
    call (send_message (chat_id msg) None (mute_notice alias)) w.

(** The loop of [handle_message]: [true] at the first domain that is
    not empty and not in the list. *)
Fixpoint forbidden_domain (links domains : list string) : bool :=
  match domains with
  | [] => false
  | dom :: rest =>
      if Py.nonempty dom && bool_decide (dom ∉ links) then true
      else forbidden_domain links rest
  end.

(** A [ValueError] of [urlparse] leaves the handler before any effect. *)
Definition handle_message (now : Z) (msg : Message) (w : World) : World :=
  let text := default "" (text msg) in
  match extract_domains text with
  | Py.Ok domains =>
      if forbidden_domain (ALLOWED_LINKS w) domains
      then process_violation now msg "Эта ссылка запрещена." text w
      else w
  | Py.ValueError => w
  end.

Definition extension (file_name : string) : string :=
  Py.lower (Py.lstrip (Ascii.eqb ".") (snd (Posixpath.splitext file_name))).

Definition handle_document (now : Z) (msg : Message) (w : World) : World :=
  match document_file_name msg with
  | Some file_name =>
      if bool_decide (extension file_name ∉ ALLOWED_EXTS w)
      then process_violation now msg "Этот тип файла запрещён." file_name w
      else w
  | None => w
  end.

(** *** Administrator check *)

Definition is_admin_in_frontend (uid : Z) (w : World) : bool :=
  match administrators w with
  | Some admins => bool_decide (uid ∈ admins)
  | None => false
  end.

Definition is_valid_admin_command (msg : Message) (w : World) : bool :=
  if negb (chat_id msg =? ADMIN_GROUP_ID cfg)
     || negb (bool_decide (message_thread_id msg = Some (BOT_THREAD_ID cfg)))
  then false
  else is_admin_in_frontend (from_id msg) w.

Definition delete_command_message (msg : Message) (w : World) : World :=
  call (delete_message (chat_id msg) (message_id msg)) w.

Definition reply (msg : Message) (t : Text) (w : World) : World :=
  call (reply_text (chat_id msg) (message_id msg) t) w.

Definition log (t : Text) (w : World) : World :=
  call (send_message (ADMIN_GROUP_ID cfg) (Some (LOGS_THREAD_ID cfg)) t) w.

(** [int(args[0])], [int(args[-1])] and [" ".join(args[1:-1])] of the
    three commands that take a reason and a term. *)
Definition parse_punishment (args : list string) : option (Z * Z * string) :=
  match head args, last args with
  | Some a0, Some an =>
      match Py.int a0, Py.int an with
      | Some target_id, Some duration =>
          Some (target_id, duration,
                Py.join " " (take (length args - 2) (drop 1 args)))
      | _, _ => None
      end
  | _, _ => None
  end.

(** *** Administrator commands *)

(** [/ban user_id reason hours] *)
Definition ban_command (now : Z) (msg : Message) (args : list string)
    (w : World) : World :=
  if negb (is_valid_admin_command msg w) then w
  else if (length args <? 3)%nat then
    delete_command_message msg (reply msg (usage "ban") w)
  else
    match parse_punishment args with
    | None => delete_command_message msg (reply msg bad_arguments w)
    | Some (target_id, duration, reason) =>
        let w := call (ban_chat_member (FRONTEND_CHAT_ID cfg) target_id) w in
        let '(record, w) :=
          add_punishment now target_id (Py.str target_id) "ban" reason duration
                         (from_first_name msg) w in
        let w := reply msg (ban_reply target_id duration (bans record)) w in
        let w := log (ban_log target_id duration reason) w in
        let w := create_task (schedule_unban now target_id duration) w in
        delete_command_message msg w
    end.

(** [/warn user_id reason days] *)
Definition warn_command (now : Z) (msg : Message) (args : list string)
    (w : World) : World :=
  if negb (is_valid_admin_command msg w) then w
  else if (length args <? 3)%nat then
    delete_command_message msg (reply msg (usage "warn") w)
  else
    match parse_punishment args with
    | None => delete_command_message msg (reply msg bad_arguments w)
    | Some (target_id, duration, reason) =>
        let '(record, w) :=
          add_punishment now target_id (Py.str target_id) "warn" reason duration
                         (from_first_name msg) w in
        let w := reply msg (warn_reply target_id (warns record)) w in
        let w := log (warn_log target_id reason) w in
        delete_command_message msg w
    end.

(** The branch of [unwarn_command] that changes the record. *)
Definition unwarn_record (record : User) : User :=
  mkUser (join_date record) (alias record)
         (warns record - 1) (bans record)
         (pop_last_warn (length (history record)) (history record)).

(** [/unwarn user_id] *)
Definition unwarn_command (msg : Message) (args : list string)
    (w : World) : World :=
  if negb (is_valid_admin_command msg w) then w
  else
    match args with
    | [] => delete_command_message msg (reply msg (usage "unwarn") w)
    | a0 :: _ =>
        match Py.int a0 with
        | None => delete_command_message msg (reply msg bad_user_id w)
        | Some target_id =>
            let w :=
              match get_user target_id w with
              | Some record =>
                  if warns record =? 0 then reply msg no_warns w
                  else
                    let record := unwarn_record record in
                    let w := update_user_record target_id record w in
                    let w := reply msg (unwarn_reply (warns record)) w in
                    log (unwarn_log target_id (warns record)) w
              | None => reply msg no_warns w
              end in
            delete_command_message msg w
        end
    end.

(** [/mute user_id reason minutes]. The end of the restriction is a
    [datetime]: the sum [datetime.now() + timedelta(minutes=duration)]
    overflows outside the years 1..9999; the embedding follows the
    program while both instants satisfy [instant]. *)
Definition mute_command (now : Z) (msg : Message) (args : list string)
    (w : World) : World :=
  if negb (is_valid_admin_command msg w) then w
  else if (length args <? 3)%nat then
    delete_command_message msg (reply msg (usage "mute") w)
  else
    match parse_punishment args with
    | None => delete_command_message msg (reply msg bad_arguments w)
    | Some (target_id, duration, reason) =>
        let until := now + duration * 60 in
        let w := call (restrict_chat_member (FRONTEND_CHAT_ID cfg) target_id
                         false (Some until)) w in
        let w := snd (add_punishment now target_id (Py.str target_id) "mute"
                        reason duration (from_first_name msg) w) in
        let w := reply msg (mute_reply target_id duration) w in
        let w := log (mute_log target_id duration reason) w in
        delete_command_message msg w
    end.

(** [/unmute user_id] *)
Definition unmute_command (msg : Message) (args : list string)
    (w : World) : World :=
  if negb (is_valid_admin_command msg w) then w
  else
    match args with
    | [] => delete_command_message msg (reply msg (usage "unmute") w)
    | a0 :: _ =>
        match Py.int a0 with
        | None => delete_command_message msg (reply msg bad_user_id w)
        | Some target_id =>
            let w := call (restrict_chat_member (FRONTEND_CHAT_ID cfg) target_id
                             true None) w in
            let w := reply msg (unmute_reply target_id) w in
            let w := log (unmute_log target_id) w in
            delete_command_message msg w
        end
    end.

Definition help_command (msg : Message) (w : World) : World :=
  reply msg (help_text (ALLOWED_LINKS w) (ALLOWED_EXTS w)) w.

(** *** The [/links] conversation *)

Definition ADD_LINK : Z := 1.
Definition END : Z := -1.

Definition links_command (msg : Message) (w : World) : World :=
  if negb (chat_id msg =? ADMIN_GROUP_ID cfg)
     || negb (bool_decide (message_thread_id msg = Some (BOT_THREAD_ID cfg)))
  then w
  else reply msg (links_keyboard (ALLOWED_LINKS w)) w.

(** [DELETE FROM allowed_links WHERE url = ...] and the reload of the
    global list. *)
Definition delete_link (url : string) (w : World) : World :=
  let tbl := filter (fun u => u ≠ url) (allowed_links w) in
  set_links tbl tbl w.

(** [INSERT INTO allowed_links ... ON CONFLICT DO NOTHING] and the
    reload. *)
Definition insert_link (domain : string) (w : World) : World :=
  let tbl := if bool_decide (domain ∈ allowed_links w) then allowed_links w
             else allowed_links w ++ [domain] in
  set_links tbl tbl w.

(** [data.split("|", 1)[1]] for [data] that holds a bar. *)
Definition after_bar (data : string) : string :=
  let '(_, _, rest) := Py.partition "|" data in rest.

Definition links_callback (q : CallbackQuery) (w : World) : Z * World :=
  let w := call answer_callback_query w in
  let msg := query_message q in
  if String.eqb (data q) "add_link" then
    (ADD_LINK, reply msg ask_url w)
  else if Py.startswith (data q) "del|" then
    (END, call (edit_text (chat_id msg) (message_id msg)
                  (confirm_delete (after_bar (data q)))) w)
  else if Py.startswith (data q) "confirm|" then
    let w := delete_link (after_bar (data q)) w in
    (END, call (edit_text (chat_id msg) (message_id msg) link_deleted) w)
  else if String.eqb (data q) "back" then
    (END, links_command msg w)
  else (END, w).

(** A [ValueError] of [urlparse] leaves the handler before any effect. *)
Definition add_link_receive (msg : Message) (w : World) : Z * World :=
  let url := Py.strip (default "" (text msg)) in
  match Urllib.hostname check_bracketed_netloc url with
  | Py.ValueError => (END, w)
  | Py.Ok h =>
      let domain := Py.replace_www (default "" h) in
      if Py.nonempty domain
      then (END, reply msg (link_added domain) (insert_link domain w))
      else (END, reply msg bad_url w)
  end.

(** *** The registered command handlers *)

Inductive Handler :=
| h_ban | h_warn | h_unwarn | h_mute | h_unmute | h_help | h_links.

(** The command handlers added in [__main__], in that order, with
    whether the handler is restricted by [filters.ChatType.GROUP]. *)
Definition command_handlers : list (string * (Handler * bool)) :=
  [ ("ban", (h_ban, true));
    ("warn", (h_warn, true));
    ("unwarn", (h_unwarn, true));
    ("mute", (h_mute, true));
    ("unmute", (h_unmute, true));
    ("help", (h_help, false));
    ("links", (h_links, false)) ].

Definition handler_of (command : string) : option Handler :=
  fst <$> (list_to_map command_handlers : gmap string (Handler * bool)) !! command.

Definition run_handler (h : Handler) (now : Z) (msg : Message)
    (args : list string) (w : World) : World :=
  match h with
  | h_ban => ban_command now msg args w
  | h_warn => warn_command now msg args w
  | h_unwarn => unwarn_command msg args w
  | h_mute => mute_command now msg args w
  | h_unmute => unmute_command msg args w
  | h_help => help_command msg w
  | h_links => links_command msg w
  end.

(** A command message [/command args...]: the handler registered for
    the command runs; a command without a handler is dropped. The
    filter on the type of chat is recorded in [command_handlers] and
    not applied, a message having no type of chat here: every dispatch
    of the program is one of [run_command], which admits more. *)
Definition run_command (now : Z) (command : string) (msg : Message)
    (args : list string) (w : World) : World :=
  match handler_of command with
  | Some h => run_handler h now msg args w
  | None => w
  end.

(** *** The updates the bot reacts to

    Every update the program handles is an [Event]; [on_link_text]
    gives a typed text to [add_link_receive] whether or not the
    conversation is in the state that expects it, so that [step] admits
    more than the registered handlers do. *)

Inductive Event :=
| on_text (now : Z) (msg : Message)
| on_document (now : Z) (msg : Message)
| on_command (now : Z) (command : string) (msg : Message) (args : list string)
| on_callback (q : CallbackQuery)
| on_link_text (msg : Message)
| on_timer (now : Z)
| on_administrators (admins : option (list Z)).

Definition step (w : World) (e : Event) : World :=
  match e with
  | on_text now msg => handle_message now msg w
  | on_document now msg => handle_document now msg w
  | on_command now command msg args => run_command now command msg args w
  | on_callback q => snd (links_callback q w)
  | on_link_text msg => snd (add_link_receive msg w)
  | on_timer now => run_due now w
  | on_administrators admins =>
      mkWorld (users w) (allowed_links w) (ALLOWED_LINKS w) (ALLOWED_EXTS w)
              admins (trace w) (tasks w)
  end.

Definition run (events : list Event) (w : World) : World :=
  foldl step w events.

End Bot.

(* ===================================================================== *)
(** ** What the ledger and the checks are measured against                *)
(* ===================================================================== *)

Definition is_warn (e : Entry) : Prop := type e = "warn".

#[global] Instance is_warn_dec e : Decision (is_warn e).
Proof. unfold is_warn. apply _. Defined.

(** The number of entries of type warn in a history. *)
Definition warn_entries (h : list Entry) : Z :=
  Z.of_nat (length (filter is_warn h)).

(** The ledger invariant, for one record and for the table. *)
Definition record_ok (user : User) : Prop :=
  warns user = warn_entries (history user).

Definition ledger_ok (w : World) : Prop :=
  forall uid user, users w !! uid = Some user -> record_ok user.

(** The counters and the history of an identity, zero and empty when
    the identity has no record. *)
Definition warns_of (uid : Z) (w : World) : Z :=
  match get_user uid w with Some user => warns user | None => 0 end.

Definition bans_of (uid : Z) (w : World) : Z :=
  match get_user uid w with Some user => bans user | None => 0 end.

Definition history_of (uid : Z) (w : World) : list Entry :=
  match get_user uid w with Some user => history user | None => [] end.

(** The record [add_punishment] stores and returns. *)
Definition punished (now : Z) (name p_type why : string) (duration : Z)
    (by_whom : string) (old : option User) : User :=
  append_entry (mkEntry now now p_type why duration by_whom)
               (bump p_type (default (mkUser now name 0 0 []) old)).

(** A Scheduled Expiry for [uid] firing at [fire_at] has been registered
    between [w] and [w']. *)
Definition registers_expiry (uid fire_at : Z) (w w' : World) : Prop :=
  exists t, (t ∈ tasks w') /\ (t ∉ tasks w) /\ task_user_id t = uid /\ wake_at t = fire_at.

(** *** The link check *)

(** Whether the text reads [http://] or [https://] somewhere. *)
Fixpoint mentions_scheme (s : string) : bool :=
  match s with
  | EmptyString => false
  | String _ r =>
      Py.startswith s "http://" || Py.startswith s "https://" || mentions_scheme r
  end.




(** The domain [extract_domains] computes for one URL. *)
Definition domain_of (check : string -> bool) (url : string) : string :=
  match Urllib.hostname check url with
  | Py.Ok (Some host) => Py.replace_www host
  | _ => ""
  end.


(** *** Where the embedding follows the program *)

(** An identifier the [BIGINT] column [user_id] holds: -2^63 .. 2^63-1. *)
Definition in_bigint (n : Z) : Prop :=
  -9223372036854775808 <= n <= 9223372036854775807.

(** A delay in seconds that a float holds exactly: at most 2^53. *)
Definition exact_delay (seconds : Z) : Prop := seconds <= 9007199254740992.

(** An instant, in seconds since the epoch, that a [datetime] holds
    whatever the local time zone: a day inside the years 1..9999. *)
Definition instant (t : Z) : Prop := -62135510400 <= t <= 253402214399.

(** *** The attachment check *)

(** The text after the last [c], empty when there is no [c]: the
    extension of a file name in the words of the specification. *)
Definition after_last (c : ascii) (s : string) : string :=
  let '(_, found, rest) := Py.rpartition c s in
  if found then rest else "".

Definition claimed_extension (file_name : string) : string :=
  Py.lower (after_last "." file_name).

(** The last component of a path. *)
Definition basename (p : string) : string :=
  let '(_, _, rest) := Py.rpartition "/" p in rest.

(** *** A deployment used in the examples *)

Module Scenario.

Definition cfg : Config := mkConfig (-1001) (-2002) 7 8.

Definition any_netloc (netloc : string) : bool := true.

(** A fresh database, one allowed host, two allowed extensions and the
    administrators 1 and 2. *)
Definition start : World :=
  mkWorld ∅ ["good.example"] ["good.example"] ["pdf"; "png"] (Some [1; 2]) [] [].

(** A message of user 42 in the front-end chat. *)
Definition post (message : Z) (body file : option string) : Message :=
  mkMessage message (-1001) None 42 (Some "bob") "Bob" body file.

(** A message of administrator 1 in the command topic. *)
Definition order (message : Z) : Message :=
  mkMessage message (-2002) (Some 7) 1 None "Ann" None None.

(** The keyboard the bot posts in the command topic on [/links]. *)
Definition keyboard : Message :=
  mkMessage 20 (-2002) (Some 7) 999 (Some "ftgbot") "Bot" None None.


(** User 42 after a first violation at 1000. *)
Definition warned : World :=
  handle_message cfg any_netloc 1000 (post 10 (Some "see http://evil.example/x") None) start.

(** ... and after a second one at 2000. *)
Definition muted : World :=
  handle_document cfg 2000 (post 11 None (Some "payload.exe")) warned.

(** ... and after [/ban 42 spam 24] at 5000. *)
Definition banned : World :=
  ban_command cfg 5000 (order 12) ["42"; "spam"; "24"] muted.

End Scenario.

(** The number of times a call occurs in a trace. *)
Definition calls (c : Call) (t : list Call) : nat :=
  length (filter (fun c' => c' = c) t).

(** *** Further measures of the ledger *)

Definition is_ban (e : Entry) : Prop := type e = "ban".

#[global] Instance is_ban_dec e : Decision (is_ban e).
Proof. unfold is_ban. apply _. Defined.

(** The number of entries of type ban in a history. *)
Definition ban_entries (h : list Entry) : Z :=
  Z.of_nat (length (filter is_ban h)).

(** Every record has its [bans] counter equal to the number of its
    entries of type ban. *)
Definition bans_ok (w : World) : Prop :=
  forall uid user, users w !! uid = Some user -> bans user = ban_entries (history user).

(** The entries of a history other than warnings. *)
Definition lasting (h : list Entry) : list Entry :=
  filter (fun e => ~ is_warn e) h.

(** How one update may change the record of an identity: not at all,
    by one punishment added with [add_punishment], or by one warning
    lifted in [unwarn_command]. *)
Inductive record_step : option User -> option User -> Prop :=
| record_same old : record_step old old
| record_punished old now name p_type why duration by_whom :
    record_step old (Some (punished now name p_type why duration by_whom old))
| record_unwarned record :
    warns record <> 0 -> record_step (Some record) (Some (unwarn_record record)).

(** Violations of one offender handled one after the other, each given
    with its instant, message, reason and detail. *)
Definition process_violations (cfg : Config)
    (vs : list (Z * Message * string * string)) (w : World) : World :=
  foldl (fun w v => let '(now, msg, why, detail) := v in
                    process_violation cfg now msg why detail w) w vs.

(** The entry [process_violation] adds for a violation met with a
    warning already on record. *)
Definition mute_entry (v : Z * Message * string * string) : Entry :=
  let '(now, _, why, _) := v in mkEntry now now "mute" why 60 "bot".

(** The world with another allow-list for links, table and global list
    alike. *)
Definition with_links (links : list string) (w : World) : World :=
  set_links links links w.

(** The arguments a command handler answers with a usage or an error
    message: too few of them, or an identifier or a term that [int]
    rejects. *)
Definition malformed (h : Handler) (args : list string) : Prop :=
  match h with
  | h_ban | h_warn | h_mute =>
      (length args < 3)%nat \/ parse_punishment args = None
  | h_unwarn | h_unmute =>
      match args with
      | [] => True
      | a0 :: _ => Py.int a0 = None
      end
  | h_help | h_links => False
  end.

(** *** More of the deployment used in the examples *)

Module Cases.

Import Scenario.

(** A message of administrator 1 in the command topic with a text. *)
Definition typed (message : Z) (body : string) : Message :=
  mkMessage message (-2002) (Some 7) 1 None "Ann" (Some body) None.

(** A message of user 42 in the command topic: the right place, no
    administrator. *)
Definition intruder (message : Z) : Message :=
  mkMessage message (-2002) (Some 7) 42 (Some "bob") "Bob" None None.

(** The platform fails to report the administrators. *)
Definition offline : World :=
  mkWorld ∅ ["good.example"] ["good.example"] ["pdf"; "png"] None [] [].

End Cases.

(* ===================================================================== *)
(** ** The ledger: counters and history                                   *)
(* ===================================================================== *)

Section Ledger.

Implicit Types (h : list Entry) (e : Entry) (w : World) (user : User).

Lemma warn_entries_app h1 h2 :
  warn_entries (h1 ++ h2) = warn_entries h1 + warn_entries h2.
Proof.
  unfold warn_entries. rewrite filter_app, length_app. lia.
Qed.

Lemma warn_entries_one e :
  warn_entries [e] = if String.eqb (type e) "warn" then 1 else 0.
Proof.
  unfold warn_entries. rewrite filter_cons, filter_nil.
  destruct (String.eqb_spec (type e) "warn") as [Heq | Hne];
    destruct (decide (is_warn e)) as [Hw | Hw]; unfold is_warn in Hw;
    try reflexivity; congruence.
Qed.

Lemma warn_entries_nonneg h : 0 <= warn_entries h.
Proof. unfold warn_entries. lia. Qed.

Lemma warn_entries_none h :
  Forall (fun e => ~ is_warn e) h -> warn_entries h = 0.
Proof.
  intros Hall. unfold warn_entries.
  induction Hall as [| e h He _ IH]; [reflexivity |].
  rewrite filter_cons. destruct (decide (is_warn e)); [contradiction | exact IH].
Qed.

Lemma delete_middle (p : list Entry) x suf :
  delete (length p) (p ++ x :: suf) = p ++ suf.
Proof.
  induction p as [| a p IHp]; [reflexivity |]. cbn. f_equal. exact IHp.
Qed.

(** The loop looks at the indices below [n] only. *)
Lemma pop_last_warn_app pre : forall suf,
  pop_last_warn (length pre) (pre ++ suf) = pop_last_warn (length pre) pre ++ suf.
Proof.
  induction pre as [| x p IH] using rev_ind; intros suf; [reflexivity |].
  rewrite length_app. cbn [length]. rewrite Nat.add_1_r. cbn [pop_last_warn].
  rewrite <- (assoc_L (++) p [x] suf). change ([x] ++ suf) with (x :: suf).
  rewrite !list_lookup_middle by reflexivity.
  destruct (String.eqb (type x) "warn").
  - rewrite !delete_middle. now rewrite app_nil_r.
  - rewrite (IH (x :: suf)), (IH [x]). now rewrite <- (assoc_L (++)).
Qed.

Lemma pop_last_warn_snoc h e :
  pop_last_warn (length (h ++ [e])) (h ++ [e])
  = if String.eqb (type e) "warn" then h
    else pop_last_warn (length h) h ++ [e].
Proof.
  rewrite length_app. cbn [length]. rewrite Nat.add_1_r. cbn [pop_last_warn].
  rewrite list_lookup_middle by reflexivity.
  destruct (String.eqb (type e) "warn").
  - rewrite delete_middle. apply app_nil_r.
  - apply pop_last_warn_app.
Qed.

(** What the loop of [unwarn_command] does to a history: the last entry
    of type warn goes and the others stay in place; a history without
    such an entry is left as it is. *)
Lemma pop_last_warn_spec h :
  (exists h1 e h2,
      h = h1 ++ e :: h2 /\ is_warn e /\ Forall (fun e' => ~ is_warn e') h2
      /\ pop_last_warn (length h) h = h1 ++ h2)
  \/ (Forall (fun e' => ~ is_warn e') h /\ pop_last_warn (length h) h = h).
Proof.
  induction h as [| x p IH] using rev_ind.
  - right. split; [constructor | reflexivity].
  - rewrite pop_last_warn_snoc.
    destruct (String.eqb_spec (type x) "warn") as [Hx | Hx].
    + left. exists p, x, []. rewrite app_nil_r. repeat split; auto.
    + destruct IH as [(h1 & e & h2 & -> & He & Hh2 & Hpop) | [Hall Hpop]].
      * left. exists h1, e, (h2 ++ [x]). rewrite Hpop.
        split; [now rewrite <- (assoc_L (++)) |].
        split; [exact He |]. split; [| now rewrite <- (assoc_L (++))].
        apply Forall_app. split; [exact Hh2 |]. constructor; [exact Hx | constructor].
      * right. rewrite Hpop. split; [| reflexivity].
        apply Forall_app. split; [exact Hall |]. constructor; [exact Hx | constructor].
Qed.

Lemma bump_append_ok p_type entry user :
  type entry = p_type -> record_ok user ->
  record_ok (append_entry entry (bump p_type user)).
Proof.
  unfold record_ok, append_entry, bump. intros <- Hok. cbn.
  rewrite warn_entries_app, warn_entries_one.
  destruct (String.eqb_spec (type entry) "warn") as [Hw | Hw]; cbn.
  - lia.
  - destruct (String.eqb (type entry) "ban"); cbn; lia.
Qed.

Lemma unwarn_record_ok user :
  warns user <> 0 -> record_ok user -> record_ok (unwarn_record user).
Proof.
  unfold record_ok, unwarn_record. cbn. intros Hne Hok.
  destruct (pop_last_warn_spec (history user))
    as [(h1 & e & h2 & Hh & He & Hh2 & Hpop) | [Hall Hpop]].
  - rewrite Hpop, Hok, Hh, !warn_entries_app.
    change (e :: h2) with ([e] ++ h2).
    rewrite warn_entries_app, warn_entries_one.
    unfold is_warn in He. rewrite He. cbn. lia.
  - exfalso. apply Hne. rewrite Hok. now apply warn_entries_none.
Qed.

Lemma update_user_record_ok uid user w :
  record_ok user -> ledger_ok w -> ledger_ok (update_user_record uid user w).
Proof.
  intros Hu Hw. unfold update_user_record.
  destruct (users w !! uid) as [row |] eqn:Hrow; [| exact Hw].
  intros uid' user'. cbn. rewrite lookup_insert. case_decide.
  - intros [= <-]. exact Hu.
  - apply Hw.
Qed.

Lemma create_user_ok now uid name w :
  ledger_ok w -> ledger_ok (create_user now uid name w).
Proof.
  intros Hw. unfold create_user.
  destruct (users w !! uid) as [row |] eqn:Hrow; [exact Hw |].
  intros uid' user'. cbn. rewrite lookup_insert. case_decide.
  - intros [= <-]. reflexivity.
  - apply Hw.
Qed.

Lemma add_punishment_ok now uid name p_type why duration by_whom w :
  ledger_ok w ->
  ledger_ok (snd (add_punishment now uid name p_type why duration by_whom w)).
Proof.
  intros Hw. unfold add_punishment, get_user.
  destruct (users w !! uid) as [user |] eqn:Huser; cbn [snd].
  - apply update_user_record_ok; [| exact Hw].
    apply bump_append_ok; [reflexivity | exact (Hw _ _ Huser)].
  - apply update_user_record_ok; [| now apply create_user_ok].
    apply bump_append_ok; [reflexivity |].
    unfold create_user. rewrite Huser. cbn. rewrite lookup_insert_eq. reflexivity.
Qed.

End Ledger.

(* ===================================================================== *)
(** ** What a ledger mutation leaves alone                                *)
(* ===================================================================== *)

Section Frames.

Implicit Types (w : World) (c : Call) (t : Task).

Lemma add_punishment_fst now uid name p_type why duration by_whom w :
  fst (add_punishment now uid name p_type why duration by_whom w)
  = punished now name p_type why duration by_whom (users w !! uid).
Proof.
  unfold add_punishment, punished, get_user, create_user.
  destruct (users w !! uid) as [user |] eqn:Huser; cbn; [reflexivity |].
  now rewrite lookup_insert_eq.
Qed.

Lemma add_punishment_users now uid name p_type why duration by_whom w :
  users (snd (add_punishment now uid name p_type why duration by_whom w))
  = <[uid := punished now name p_type why duration by_whom (users w !! uid)]> (users w).
Proof.
  unfold add_punishment, punished, get_user, update_user_record, create_user.
  destruct (users w !! uid) as [user |] eqn:Huser; cbn.
  - rewrite Huser. cbn. f_equal. destruct user as [j a wn bn h].
    unfold append_entry, bump. cbn.
    destruct (String.eqb p_type "warn"); [reflexivity |].
    destruct (String.eqb p_type "ban"); reflexivity.
  - rewrite !lookup_insert_eq. cbn. rewrite insert_insert_eq. f_equal.
    unfold append_entry, bump. cbn.
    destruct (String.eqb p_type "warn"); [reflexivity |].
    destruct (String.eqb p_type "ban"); reflexivity.
Qed.

Lemma add_punishment_rest now uid name p_type why duration by_whom w :
  let w' := snd (add_punishment now uid name p_type why duration by_whom w) in
  trace w' = trace w /\ tasks w' = tasks w
  /\ allowed_links w' = allowed_links w /\ ALLOWED_LINKS w' = ALLOWED_LINKS w
  /\ ALLOWED_EXTS w' = ALLOWED_EXTS w /\ administrators w' = administrators w.
Proof.
  unfold add_punishment, get_user, update_user_record, create_user.
  destruct (users w !! uid) as [user |] eqn:Huser; cbn.
  - rewrite Huser. cbn. repeat split.
  - rewrite !lookup_insert_eq. cbn. repeat split.
Qed.

Lemma punished_history now name p_type why duration by_whom old :
  history (punished now name p_type why duration by_whom old)
  = history (default (mkUser now name 0 0 []) old)
    ++ [mkEntry now now p_type why duration by_whom].
Proof.
  unfold punished, append_entry, bump. cbn.
  destruct (String.eqb p_type "warn"); [reflexivity |].
  destruct (String.eqb p_type "ban"); reflexivity.
Qed.

Lemma ledger_ok_users w w' : users w' = users w -> ledger_ok w -> ledger_ok w'.
Proof. unfold ledger_ok. now intros ->. Qed.

Lemma ledger_ok_call c w : ledger_ok w -> ledger_ok (call c w).
Proof. exact id. Qed.

Lemma ledger_ok_create_task t w : ledger_ok w -> ledger_ok (create_task t w).
Proof. exact id. Qed.

Lemma ledger_ok_set_links a b w : ledger_ok w -> ledger_ok (set_links a b w).
Proof. exact id. Qed.

Lemma ledger_ok_set_tasks ts w : ledger_ok w -> ledger_ok (set_tasks ts w).
Proof. exact id. Qed.

Lemma ledger_ok_empty w : users w = ∅ -> ledger_ok w.
Proof. intros He uid user. rewrite He, lookup_empty. discriminate. Qed.

End Frames.

Create HintDb ledger.
#[export] Hint Resolve ledger_ok_call ledger_ok_create_task ledger_ok_set_links
  ledger_ok_set_tasks add_punishment_ok update_user_record_ok unwarn_record_ok : ledger.

(* ===================================================================== *)
(** ** Indices and slices                                                 *)
(* ===================================================================== *)

Section Strings.

Implicit Types (s a b : string) (c : ascii).

Local Arguments Ascii.eqb : simpl never.

Lemma append_assoc a b s : (a +:+ b) +:+ s = a +:+ (b +:+ s).
Proof.
  induction a as [| x a IH]; [reflexivity |].
  change (String x ((a +:+ b) +:+ s) = String x (a +:+ (b +:+ s))).
  now rewrite IH.
Qed.

Lemma len_append a b : Py.len (a +:+ b) = Py.len a + Py.len b.
Proof.
  unfold Py.len. induction a as [| x a IH].
  - reflexivity.
  - simpl. lia.
Qed.

Lemma len_nonneg s : 0 <= Py.len s.
Proof. unfold Py.len. lia. Qed.

Lemma contains_append c a b :
  Py.contains c (a +:+ b) = Py.contains c a || Py.contains c b.
Proof.
  induction a as [| x a IH]; simpl; [reflexivity |].
  rewrite IH. now rewrite orb_assoc.
Qed.

Lemma rpartition_spec c s :
  match Py.rpartition c s with
  | (a, true, b) => s = a +:+ String c b /\ Py.contains c b = false
  | (a, false, b) => a = "" /\ b = s /\ Py.contains c s = false
  end.
Proof.
  induction s as [| x s IH]; simpl; [auto |].
  destruct (Py.rpartition c s) as [[a f] b]. destruct f.
  - destruct IH as [-> Hb]. auto.
  - destruct IH as (-> & -> & Hs). destruct (Ascii.eqb_spec x c) as [-> | Hne].
    + auto.
    + simpl. auto.
Qed.

Lemma rfind_from_absent c s : forall i,
  Py.contains c s = false -> Py.rfind_from i c s = -1.
Proof.
  induction s as [| x s IH]; intros i Hno; [reflexivity |].
  simpl in Hno |- *. apply orb_false_iff in Hno as [Hx Hs].
  rewrite (IH _ Hs), Hx. reflexivity.
Qed.

Lemma rfind_from_last c a b : forall i,
  0 <= i -> Py.contains c b = false ->
  Py.rfind_from i c (a +:+ String c b) = i + Py.len a.
Proof.
  induction a as [| x a IH]; intros i Hi Hb.
  - simpl. rewrite (rfind_from_absent _ _ _ Hb).
    simpl. rewrite Ascii.eqb_refl. unfold Py.len. simpl. lia.
  - simpl. rewrite IH by (lia || exact Hb).
    pose proof (len_nonneg a) as Ha.
    destruct (Z.leb_spec 0 (i + 1 + Py.len a)) as [_ | Hlt]; [| lia].
    unfold Py.len. cbn [String.length]. rewrite Nat2Z.inj_succ. lia.
Qed.

(** With no [c] after the prefix [a], the last [c] lies inside [a]. *)
Lemma rfind_from_before c a b : forall i,
  0 <= i -> Py.contains c b = false ->
  Py.rfind_from i c (a +:+ b) < i + Py.len a.
Proof.
  induction a as [| x a IH]; intros i Hi Hb.
  - simpl. rewrite (rfind_from_absent _ _ _ Hb). unfold Py.len. simpl. lia.
  - simpl.
    specialize (IH (i + 1) ltac:(lia) Hb).
    unfold Py.len in *. cbn [String.length]. rewrite Nat2Z.inj_succ.
    destruct (0 <=? Py.rfind_from (i + 1) c (a +:+ b)); [lia |].
    destruct (Ascii.eqb x c); lia.
Qed.

Lemma substring_skip a : forall n s,
  substring (String.length a) n (a +:+ s) = substring 0 n s.
Proof. induction a as [| x a IH]; intros n s; simpl; [reflexivity | apply IH]. Qed.

Lemma substring_all s : substring 0 (String.length s) s = s.
Proof. induction s as [| x s IH]; simpl; [reflexivity | now rewrite IH]. Qed.

Lemma slice_suffix a b : Py.slice (a +:+ b) (Py.len a) (Py.len (a +:+ b)) = b.
Proof.
  unfold Py.slice. rewrite len_append. unfold Py.len.
  replace (Z.of_nat (String.length a) + Z.of_nat (String.length b)
           - Z.of_nat (String.length a)) with (Z.of_nat (String.length b)) by lia.
  rewrite !Nat2Z.id, substring_skip. apply substring_all.
Qed.

Lemma slice_char a c s :
  Py.slice (a +:+ String c s) (Py.len a) (Py.len a + 1) = String c "".
Proof.
  unfold Py.slice, Py.len.
  replace (Z.of_nat (String.length a) + 1 - Z.of_nat (String.length a)) with 1 by lia.
  rewrite Nat2Z.id, substring_skip. simpl. now destruct s.
Qed.

(** The loop of [_splitext] over the characters [x] that stand between
    the separator and the last dot. *)
Lemma skip_leading_dots_spec x : forall pre s,
  Posixpath.skip_leading_dots (pre +:+ x +:+ s) (Py.len pre) (String.length x)
  = negb (Py.forall_chars (Ascii.eqb ".") x).
Proof.
  induction x as [| c x IH]; intros pre s; [reflexivity |].
  change (String.length (String c x)) with (S (String.length x)).
  change (String c x +:+ s) with (String c (x +:+ s)).
  cbn [Posixpath.skip_leading_dots Py.forall_chars].
  rewrite slice_char.
  destruct (Ascii.eqb_spec "." c) as [<- | Hne].
  - change (negb (String.eqb "." ".")) with false. cbn [andb].
    specialize (IH (pre +:+ ".") s).
    rewrite append_assoc, len_append in IH. exact IH.
  - replace (String.eqb (String c "") ".") with false; [reflexivity |].
    symmetry. apply String.eqb_neq. intros [= ->]. now apply Hne.
Qed.

Lemma lstrip_dots_all x s :
  Py.forall_chars (Ascii.eqb ".") x = true ->
  Py.lstrip (Ascii.eqb ".") (x +:+ s) = Py.lstrip (Ascii.eqb ".") s.
Proof.
  induction x as [| c x IH]; simpl; [reflexivity |].
  intros H. apply andb_true_iff in H as [Hc Hx]. rewrite Hc. now apply IH.
Qed.

Lemma lstrip_dots_some x s :
  Py.forall_chars (Ascii.eqb ".") x = false ->
  Py.lstrip (Ascii.eqb ".") (x +:+ s) = Py.lstrip (Ascii.eqb ".") x +:+ s.
Proof.
  induction x as [| c x IH]; simpl; [discriminate |].
  destruct (Ascii.eqb "." c); simpl; [exact IH | reflexivity].
Qed.

Lemma lstrip_dots_dotless s :
  Py.contains "." s = false -> Py.lstrip (Ascii.eqb ".") s = s.
Proof.
  destruct s as [| c s]; simpl; [reflexivity |].
  intros H. apply orb_false_iff in H as [Hc _].
  rewrite Ascii.eqb_sym, Hc. reflexivity.
Qed.

Lemma after_last_found c a b :
  Py.contains c b = false -> after_last c (a +:+ String c b) = b.
Proof.
  intros Hb. unfold after_last.
  pose proof (rpartition_spec c (a +:+ String c b)) as Hspec.
  destruct (Py.rpartition c (a +:+ String c b)) as [[a' f] b']. destruct f.
  - destruct Hspec as [Heq Hb'].
    assert (Hlen : forall a1 a2 b1 b2,
               a1 +:+ String c b1 = a2 +:+ String c b2 ->
               Py.contains c b1 = false -> Py.contains c b2 = false -> b1 = b2).
    { clear. induction a1 as [| x a1 IH]; intros a2 b1 b2 He H1 H2.
      - destruct a2 as [| y a2]; simpl in He; [now injection He |].
        injection He as <- ->. rewrite contains_append in H1. simpl in H1.
        rewrite Ascii.eqb_refl, orb_true_r in H1. discriminate.
      - destruct a2 as [| y a2]; simpl in He.
        + injection He as -> <-. rewrite contains_append in H2. simpl in H2.
          rewrite Ascii.eqb_refl, orb_true_r in H2. discriminate.
        + injection He as _ He. exact (IH _ _ _ He H1 H2). }
    symmetry. exact (Hlen _ _ _ _ Heq Hb Hb').
  - destruct Hspec as (_ & _ & Hno). rewrite contains_append in Hno. simpl in Hno.
    rewrite Ascii.eqb_refl, orb_true_r in Hno. discriminate.
Qed.

Lemma after_last_absent c s : Py.contains c s = false -> after_last c s = "".
Proof.
  intros Hs. unfold after_last. pose proof (rpartition_spec c s) as Hspec.
  destruct (Py.rpartition c s) as [[a f] b]. destruct f; [| reflexivity].
  destruct Hspec as [-> _]. rewrite contains_append in Hs. simpl in Hs.
  rewrite Ascii.eqb_refl, orb_true_r in Hs. discriminate.
Qed.

Lemma lstrip_dot_ext e :
  Py.contains "." e = false -> Py.lstrip (Ascii.eqb ".") (String "." e) = e.
Proof.
  intros He. change (Py.lstrip (Ascii.eqb ".") (String "." e))
    with (Py.lstrip (Ascii.eqb ".") e).
  now apply lstrip_dots_dotless.
Qed.

(** The extension of [pre +:+ b], where [b] is the last component. *)
Lemma extension_of_parts pre b :
  Py.rfind "/" (pre +:+ b) + 1 = Py.len pre ->
  (Py.contains "." b = false ->
   Py.rfind "." (pre +:+ b) <= Py.rfind "/" (pre +:+ b)) ->
  extension (pre +:+ b)
  = Py.lower (after_last "." (Py.lstrip (Ascii.eqb ".") b)).
Proof.
  intros Hsep Hdotless. unfold extension, Posixpath.splitext.
  pose proof (rpartition_spec "." b) as Hb.
  destruct (Py.rpartition "." b) as [[x fd] e]. destruct fd.
  - destruct Hb as [-> He].
    assert (Hdot : Py.rfind "." (pre +:+ x +:+ String "." e) = Py.len pre + Py.len x).
    { unfold Py.rfind. rewrite <- append_assoc, rfind_from_last by (lia || exact He).
      rewrite len_append. lia. }
    rewrite Hdot.
    replace (Py.rfind "/" (pre +:+ x +:+ String "." e) + 1) with (Py.len pre) by lia.
    replace (Py.len pre + Py.len x - Py.len pre) with (Py.len x) by lia.
    unfold Py.len at 4. rewrite Nat2Z.id, skip_leading_dots_spec.
    pose proof (len_nonneg x) as Hx.
    destruct (Z.ltb_spec (Py.rfind "/" (pre +:+ x +:+ String "." e))
                (Py.len pre + Py.len x)) as [_ | Hge]; [| lia].
    cbn [andb]. destruct (Py.forall_chars (Ascii.eqb ".") x) eqn:Hdots; cbn [negb snd].
    + rewrite (lstrip_dots_all x _ Hdots), (lstrip_dot_ext e He).
      now rewrite (after_last_absent "." e He).
    + rewrite <- len_append, <- append_assoc, slice_suffix.
      rewrite (lstrip_dot_ext e He), (lstrip_dots_some x _ Hdots).
      now rewrite (after_last_found "." _ e He).
  - destruct Hb as (_ & _ & Hno). specialize (Hdotless Hno).
    destruct (Z.ltb_spec (Py.rfind "/" (pre +:+ b)) (Py.rfind "." (pre +:+ b)))
      as [Hlt | _]; [lia |].
    cbn [andb snd].
    now rewrite (lstrip_dots_dotless b Hno), (after_last_absent "." b Hno).
Qed.

(** What [handle_document] takes for the extension: the last component
    of the path, its leading dots set aside, then the text after the
    last dot, in lower case. *)
Lemma extension_spec file_name :
  extension file_name
  = Py.lower (after_last "." (Py.lstrip (Ascii.eqb ".") (basename file_name))).
Proof.
  unfold basename. pose proof (rpartition_spec "/" file_name) as Hp.
  destruct (Py.rpartition "/" file_name) as [[d fs] b]. destruct fs.
  - destruct Hp as [-> Hb].
    change (d +:+ String "/" b) with (d +:+ ("/" +:+ b)).
    rewrite <- append_assoc. apply extension_of_parts.
    + rewrite append_assoc. change ("/" +:+ b) with (String "/" b).
      unfold Py.rfind. rewrite rfind_from_last by (lia || exact Hb).
      rewrite len_append. reflexivity.
    + intros Hno. rewrite append_assoc. change ("/" +:+ b) with (String "/" b).
      unfold Py.rfind at 2. rewrite rfind_from_last by (lia || exact Hb).
      pose proof (rfind_from_before "." d (String "/" b) 0 ltac:(lia)) as Hlt.
      unfold Py.rfind. simpl Py.contains in Hlt.
      change (Ascii.eqb "/" ".") with false in Hlt. cbn [orb] in Hlt.
      specialize (Hlt Hno). lia.
  - destruct Hp as (_ & -> & Hno).
    change file_name with ("" +:+ file_name) at 1. apply extension_of_parts.
    + change ("" +:+ file_name) with file_name. unfold Py.rfind.
      now rewrite rfind_from_absent.
    + intros Hdot. change ("" +:+ file_name) with file_name. unfold Py.rfind.
      rewrite !rfind_from_absent by assumption. lia.
Qed.

End Strings.

(* ===================================================================== *)
(** ** The scan for URLs                                                  *)
(* ===================================================================== *)

Section Scanner.

Variable check_bracketed_netloc : string -> bool.

Implicit Types (s a b u p : string) (c sp : ascii).

Local Arguments Ascii.eqb : simpl never.
Local Arguments Py.isspace : simpl never.

Lemma take_until_no_space s :
  Py.forall_chars (fun c => negb (Py.isspace c)) (Py.take_until Py.isspace s) = true.
Proof.
  induction s as [| c s IH]; [reflexivity |]. simpl.
  destruct (Py.isspace c) eqn:Hc; [reflexivity |]. simpl. now rewrite Hc, IH.
Qed.

Lemma drop_prefix_take_until p : forall s r,
  Py.forall_chars (fun c => negb (Py.isspace c)) p = true ->
  Py.drop_prefix p s = Some r ->
  Py.drop_prefix p (Py.take_until Py.isspace s) = Some (Py.take_until Py.isspace r).
Proof.
  induction p as [| x p IH]; intros s r Hp; simpl.
  - now intros [= ->].
  - simpl in Hp. apply andb_true_iff in Hp as [Hx Hp].
    destruct s as [| y s]; [discriminate |].
    destruct (Ascii.eqb_spec x y) as [<- | _]; [| discriminate].
    intros Hr. simpl. apply negb_true_iff in Hx. rewrite Hx. simpl.
    rewrite Ascii.eqb_refl. now apply IH.
Qed.



Lemma forall_chars_append (p : ascii -> bool) a b :
  Py.forall_chars p (a +:+ b) = Py.forall_chars p a && Py.forall_chars p b.
Proof.
  induction a as [| c a IH]; [reflexivity |].
  change (String c a +:+ b) with (String c (a +:+ b)). simpl.
  now rewrite IH, andb_assoc.
Qed.

Lemma forall_chars_take_until (p q : ascii -> bool) s :
  Py.forall_chars p s = true -> Py.forall_chars p (Py.take_until q s) = true.
Proof.
  induction s as [| c s IH]; [reflexivity |]. simpl.
  intros H. apply andb_true_iff in H as [Hc Hs].
  destruct (q c); [reflexivity |]. simpl. now rewrite Hc, IH.
Qed.

(** A text is its run up to the first white space, then nothing or a
    white-space character and the rest. *)
Lemma take_until_split s :
  exists post,
    s = Py.take_until Py.isspace s +:+ post
    /\ (post = "" \/ exists sp r, post = String sp r /\ Py.isspace sp = true).
Proof.
  induction s as [| c s (post & Hs & Hpost)].
  - exists "". split; [reflexivity | now left].
  - simpl. destruct (Py.isspace c) eqn:Hc.
    + exists (String c s). split; [reflexivity |]. right. now exists c, s.
    + exists post. split; [| exact Hpost].
      change (String c (Py.take_until Py.isspace s) +:+ post)
        with (String c (Py.take_until Py.isspace s +:+ post)).
      now rewrite <- Hs.
Qed.


(** Where a match of the scan lies in the text. *)
Lemma scan_place s : forall in_match u,
  u ∈ Re.scan in_match s ->
  exists pre s', s = pre +:+ s' /\ Re.url_at s' = true /\ u = Py.take_until Py.isspace s'.
Proof.
  induction s as [| c s IH]; intros in_match u Hu; [inversion Hu |].
  assert (Hrest : forall m, u ∈ Re.scan m s ->
            exists pre s', String c s = pre +:+ s' /\ Re.url_at s' = true
                           /\ u = Py.take_until Py.isspace s').
  { intros m Hm. apply IH in Hm as (pre & s' & -> & Hat & ->).
    now exists (String c pre), s'. }
  simpl in Hu. destruct in_match; [now apply Hrest in Hu |].
  destruct (Re.url_at (String c s)) eqn:Hat; [| now apply Hrest in Hu].
  apply elem_of_cons in Hu as [-> | Hu]; [| now apply Hrest in Hu].
  now exists "", (String c s).
Qed.

Lemma url_at_more s :
  Re.url_at s = true ->
  exists p c r, (p = "http://" \/ p = "https://")
                /\ Py.drop_prefix p s = Some (String c r) /\ Py.isspace c = false.
Proof.
  unfold Re.url_at.
  destruct (Py.drop_prefix "https://" s) as [[| c r] |] eqn:Hs; try discriminate.
  - intros Hc. apply negb_true_iff in Hc. exists "https://", c, r. auto.
  - destruct (Py.drop_prefix "http://" s) as [[| c r] |] eqn:Hp; try discriminate.
    intros Hc. apply negb_true_iff in Hc. exists "http://", c, r. auto.
Qed.

Lemma domains_of_map urls ds :
  domains_of check_bracketed_netloc urls = Py.Ok ds ->
  ds = domain_of check_bracketed_netloc <$> urls.
Proof.
  revert ds. induction urls as [| u urls IH]; intros ds; cbn.
  - now intros [= <-].
  - unfold domain_of at 1.
    destruct (Urllib.hostname check_bracketed_netloc u) as [h |]; [| discriminate].
    destruct (domains_of check_bracketed_netloc urls) as [ds' |]; [| discriminate].
    intros [= <-]. rewrite (IH ds' eq_refl). now destruct h.
Qed.

Lemma domains_of_app urls urls' :
  domains_of check_bracketed_netloc (urls ++ urls')
  = match domains_of check_bracketed_netloc urls,
          domains_of check_bracketed_netloc urls' with
    | Py.Ok ds, Py.Ok ds' => Py.Ok (ds ++ ds')
    | _, _ => Py.ValueError
    end.
Proof.
  induction urls as [| u urls IH]; cbn.
  - now destruct (domains_of check_bracketed_netloc urls').
  - destruct (Urllib.hostname check_bracketed_netloc u); [| reflexivity].
    rewrite IH.
    destruct (domains_of check_bracketed_netloc urls); [| reflexivity].
    now destruct (domains_of check_bracketed_netloc urls').
Qed.




(** X18. The domains [extract_domains] returns for an ASCII text come
    from URLs of the text, in the order of the text, and each URL is a
    piece of the text that starts with [http://] or [https://], goes on
    with at least one more character, holds no white-space character
    and ends where the text ends or white space follows. *)
Theorem found_urls_have_a_scheme_and_no_space text ds :
  Py.isascii text = true ->
  extract_domains check_bracketed_netloc text = Py.Ok ds ->
  ds = domain_of check_bracketed_netloc <$> Re.findall_urls text
  /\ forall u, u ∈ Re.findall_urls text ->
       exists pre post,
         text = pre +:+ u +:+ post
         /\ (post = "" \/ exists sp r, post = String sp r /\ Py.isspace sp = true)
         /\ (exists c r, Py.isspace c = false
                         /\ (u = "http://" +:+ String c r \/ u = "https://" +:+ String c r))
         /\ Py.forall_chars (fun c => negb (Py.isspace c)) u = true
         /\ Py.isascii u = true.
Proof.
  intros Hascii Hds. split; [now apply domains_of_map |].
  intros u Hu. apply scan_place in Hu as (pre & s' & -> & Hat & ->).
  destruct (take_until_split s') as (post & Hs' & Hpost).
  exists pre, post. split; [now rewrite <- Hs' |]. split; [exact Hpost |].
  split; [| split; [apply take_until_no_space |]].
  - apply url_at_more in Hat as (p & c & r & Hp & Hdrop & Hc).
    exists c, (Py.take_until Py.isspace r).
    split; [exact Hc |].
    assert (Hgo : Py.forall_chars (fun c => negb (Py.isspace c)) p = true
                  -> Py.take_until Py.isspace s'
                     = p +:+ String c (Py.take_until Py.isspace r)).
    { intros Hns. pose proof (drop_prefix_take_until p s' _ Hns Hdrop) as Ht.
      simpl in Ht. rewrite Hc in Ht. clear -Ht.
      revert Ht. generalize (Py.take_until Py.isspace s') as t.
      generalize (String c (Py.take_until Py.isspace r)) as q.
      induction p as [| x p IH]; intros q t; simpl.
      - now intros [= ->].
      - destruct t as [| y t]; [discriminate |].
        destruct (Ascii.eqb_spec x y) as [<- | _]; [| discriminate].
        intros Ht. now rewrite (IH _ _ Ht). }
    destruct Hp as [-> | ->]; [left | right]; now apply Hgo.
  - apply forall_chars_take_until.
    unfold Py.isascii in Hascii. rewrite forall_chars_append in Hascii.
    now apply andb_true_iff in Hascii as [_ Hascii].
Qed.

Lemma eqb_space_false c sp :
  Py.isspace c = false -> Py.isspace sp = true -> Ascii.eqb c sp = false.
Proof.
  intros Hc Hsp. destruct (Ascii.eqb_spec c sp) as [-> | _]; [congruence | reflexivity].
Qed.

Lemma take_until_app_space a sp b :
  Py.isspace sp = true ->
  Py.take_until Py.isspace (a +:+ String sp b) = Py.take_until Py.isspace a.
Proof.
  intros Hsp. induction a as [| c a IH]; simpl; [now rewrite Hsp |].
  destruct (Py.isspace c); [reflexivity | now rewrite IH].
Qed.

Lemma drop_prefix_app_space p sp b :
  Py.isspace sp = true ->
  Py.forall_chars (fun c => negb (Py.isspace c)) p = true ->
  forall a,
    Py.drop_prefix p (a +:+ String sp b)
    = match Py.drop_prefix p a with
      | Some r => Some (r +:+ String sp b)
      | None => None
      end.
Proof.
  intros Hsp. induction p as [| x p IH]; intros Hp a; [reflexivity |].
  simpl in Hp. apply andb_true_iff in Hp as [Hx Hp]. apply negb_true_iff in Hx.
  destruct a as [| y a]; simpl.
  - now rewrite (eqb_space_false x sp Hx Hsp).
  - destruct (Ascii.eqb x y); [now apply IH | reflexivity].
Qed.

Lemma nonspace_head_app_space r sp b :
  Py.isspace sp = true ->
  Re.nonspace_head (r +:+ String sp b) = Re.nonspace_head r.
Proof. intros Hsp. destruct r; simpl; [now rewrite Hsp | reflexivity]. Qed.

Lemma url_at_app_space a sp b :
  Py.isspace sp = true ->
  Re.url_at (a +:+ String sp b) = Re.url_at a.
Proof.
  intros Hsp. unfold Re.url_at.
  rewrite !(drop_prefix_app_space _ sp b Hsp) by reflexivity.
  destruct (Py.drop_prefix "https://" a); [now apply nonspace_head_app_space |].
  destruct (Py.drop_prefix "http://" a); [now apply nonspace_head_app_space | reflexivity].
Qed.

Lemma scan_app_space a sp b :
  Py.isspace sp = true ->
  forall in_match,
    Re.scan in_match (a +:+ String sp b) = Re.scan in_match a ++ Re.scan false b.
Proof.
  intros Hsp. induction a as [| c a IH]; intros in_match.
  - change ("" +:+ String sp b) with (String sp b). simpl.
    destruct in_match; [now rewrite Hsp |].
    replace (Re.url_at (String sp b)) with false; [reflexivity |].
    symmetry. change (String sp b) with ("" +:+ String sp b).
    now rewrite url_at_app_space.
  - change (String c a +:+ String sp b) with (String c (a +:+ String sp b)).
    cbn [Re.scan]. destruct in_match; [apply IH |].
    change (String c (a +:+ String sp b)) with (String c a +:+ String sp b).
    rewrite (url_at_app_space (String c a) sp b Hsp).
    destruct (Re.url_at (String c a)); [| apply IH].
    rewrite (take_until_app_space (String c a) sp b Hsp), IH. reflexivity.
Qed.

(** X19. White space separates the URLs of an ASCII text: the URLs of
    two texts joined by a white-space character are the URLs of the
    first followed by the URLs of the second, and [extract_domains]
    gives for the joined text the domains of the first followed by
    the domains of the second, or fails when it fails for either: no
    URL runs across white space, none is lost or made by joining. *)
Theorem urls_of_joined_texts a sp b :
  Py.isascii a = true -> Py.isascii b = true -> Py.isspace sp = true ->
  Re.findall_urls (a +:+ String sp b) = Re.findall_urls a ++ Re.findall_urls b
  /\ extract_domains check_bracketed_netloc (a +:+ String sp b)
     = match extract_domains check_bracketed_netloc a,
             extract_domains check_bracketed_netloc b with
       | Py.Ok ds, Py.Ok ds' => Py.Ok (ds ++ ds')
       | _, _ => Py.ValueError
       end.
Proof.
  intros _ _ Hsp. unfold extract_domains, Re.findall_urls.
  rewrite (scan_app_space a sp b Hsp). split; [reflexivity | apply domains_of_app].
Qed.

End Scanner.

(* ===================================================================== *)
(** ** Properties of the bot                                              *)
(* ===================================================================== *)

Section Properties.

Variable cfg : Config.
Variable check_bracketed_netloc : string -> bool.

Implicit Types (w : World) (msg : Message) (args : list string).

(** *** The invariant along every run *)

Lemma process_violation_ok now msg why detail w :
  ledger_ok w -> ledger_ok (process_violation cfg now msg why detail w).
Proof.
  intros Hw. unfold process_violation.
  match goal with |- context [if ?b then _ else _] => destruct b end;
    auto 10 with ledger.
Qed.

Lemma unwarn_command_ok msg args w :
  ledger_ok w -> ledger_ok (unwarn_command cfg msg args w).
Proof.
  intros Hw. unfold unwarn_command, delete_command_message, reply, log.
  destruct (is_valid_admin_command cfg msg w); cbn [negb]; [| exact Hw].
  destruct args as [| a0 rest]; [auto with ledger |].
  destruct (Py.int a0) as [target |]; [| auto with ledger].
  apply ledger_ok_call. unfold get_user.
  destruct (users w !! target) as [record |] eqn:Hrec; [| auto with ledger].
  destruct (Z.eqb_spec (warns record) 0) as [Hz | Hnz]; [auto with ledger |].
  do 2 apply ledger_ok_call. apply update_user_record_ok; [| exact Hw].
  apply unwarn_record_ok; [exact Hnz | exact (Hw _ _ Hrec)].
Qed.

Lemma punish_command_ok now msg args w :
  ledger_ok w ->
  ledger_ok (ban_command cfg now msg args w)
  /\ ledger_ok (warn_command cfg now msg args w)
  /\ ledger_ok (mute_command cfg now msg args w).
Proof.
  intros Hw.
  unfold ban_command, warn_command, mute_command, delete_command_message, reply, log.
  destruct (is_valid_admin_command cfg msg w); cbn [negb]; [| auto].
  destruct (length args <? 3)%nat; [auto with ledger |].
  destruct (parse_punishment args) as [[[target hours] why] |]; [| auto with ledger].
  repeat split.
  - pose proof (add_punishment_ok now target (Py.str target) "ban" why hours
                  (from_first_name msg) _
                  (ledger_ok_call (ban_chat_member (FRONTEND_CHAT_ID cfg) target) w Hw))
      as Hadd.
    destruct (add_punishment _ _ _ _ _ _ _ _) as [record w1].
    cbn [snd] in Hadd. auto 10 with ledger.
  - pose proof (add_punishment_ok now target (Py.str target) "warn" why hours
                  (from_first_name msg) w Hw) as Hadd.
    destruct (add_punishment _ _ _ _ _ _ _ _) as [record w1].
    cbn [snd] in Hadd. auto 10 with ledger.
  - auto 10 with ledger.
Qed.

Lemma run_due_users now w : users (run_due cfg now w) = users w.
Proof.
  unfold run_due. cbn.
  generalize (filter (due now) (tasks w)). intros ts. revert w.
  induction ts as [| t ts IH]; intros w; [reflexivity |].
  cbn. now rewrite IH.
Qed.

Lemma step_ok w e : ledger_ok w -> ledger_ok (step cfg check_bracketed_netloc w e).
Proof.
  intros Hw. destruct e as [now msg | now msg | now cmd msg args | q | msg | now | admins]; cbn.
  - unfold handle_message.
    destruct (extract_domains _ _) as [ds |]; [| exact Hw].
    destruct (forbidden_domain _ ds); [now apply process_violation_ok | exact Hw].
  - unfold handle_document.
    destruct (document_file_name msg) as [fn |]; [| exact Hw].
    case_bool_decide; [now apply process_violation_ok | exact Hw].
  - unfold run_command. destruct (handler_of cmd) as [h |]; [| exact Hw].
    destruct h; cbn;
      try (now apply punish_command_ok); try (now apply unwarn_command_ok).
    + unfold unmute_command, delete_command_message, reply, log.
      destruct (is_valid_admin_command cfg msg w); cbn [negb]; [| exact Hw].
      destruct args as [| a0 rest]; [auto with ledger |].
      destruct (Py.int a0); auto 10 with ledger.
    + unfold help_command, reply. auto with ledger.
    + unfold links_command, reply.
      match goal with |- context [if ?b then _ else _] => destruct b end;
        auto with ledger.
  - unfold links_callback, links_command, delete_link, reply.
    repeat (match goal with |- context [if ?b then _ else _] => destruct b end;
            cbn [snd]; auto 10 with ledger).
  - unfold add_link_receive, insert_link, reply.
    destruct (Urllib.hostname _ _) as [h |]; cbn [snd]; [| exact Hw].
    destruct (Py.nonempty _); cbn [snd]; auto with ledger.
  - eapply ledger_ok_users; [apply run_due_users | exact Hw].
  - exact Hw.
Qed.

Lemma run_ok events : forall w, ledger_ok w -> ledger_ok (run cfg check_bracketed_netloc events w).
Proof.
  induction events as [| e events IH]; intros w Hw; [exact Hw |].
  cbn. apply IH. now apply step_ok.
Qed.

(** C2. Ledger invariant: once every record has its [warns] counter
    equal to the number of its history entries of type warn, this
    still holds after [add_punishment] with any type of punishment,
    after [unwarn_command], and after any sequence of updates handled
    by the bot. *)
Theorem ledger_invariant w :
  ledger_ok w ->
  (forall now uid name p_type why duration by_whom,
      ledger_ok (snd (add_punishment now uid name p_type why duration by_whom w)))
  /\ (forall msg args, ledger_ok (unwarn_command cfg msg args w))
  /\ (forall events, ledger_ok (run cfg check_bracketed_netloc events w)).
Proof.
  intros Hw. split; [| split].
  - intros. now apply add_punishment_ok.
  - intros. now apply unwarn_command_ok.
  - intros. now apply run_ok.
Qed.

(** *** Escalation *)

Lemma process_violation_warn now msg why detail w :
  warns_of (from_id msg) w = 0 ->
  process_violation cfg now msg why detail w
  = snd (add_punishment now (from_id msg) (alias_of msg) "warn" why 0 "bot"
           (call (send_message (chat_id msg) None
                    (warn_notice (alias_of msg) why (ALLOWED_LINKS w) (ALLOWED_EXTS w)))
              (call (send_message (ADMIN_GROUP_ID cfg) (Some (LOGS_THREAD_ID cfg))
                       (violation_log (from_id msg) (alias_of msg) now
                          match text msg with Some (String c r) => String c r | _ => detail end))
                 (call (delete_message (chat_id msg) (message_id msg)) w)))).
Proof.
  intros Hz. unfold process_violation.
  change (match get_user (from_id msg) (call _ (call _ w)) with
          | Some record => warns record | None => 0 end)
    with (warns_of (from_id msg) w).
  now rewrite Hz.
Qed.

Lemma process_violation_mute now msg why detail w :
  warns_of (from_id msg) w <> 0 ->
  process_violation cfg now msg why detail w
  = call (send_message (chat_id msg) None (mute_notice (alias_of msg)))
      (snd (add_punishment now (from_id msg) (alias_of msg) "mute" why 60 "bot"
              (call (restrict_chat_member (chat_id msg) (from_id msg) false
                       (Some (now + 3600)))
                 (call (send_message (ADMIN_GROUP_ID cfg) (Some (LOGS_THREAD_ID cfg))
                          (violation_log (from_id msg) (alias_of msg) now
                             match text msg with Some (String c r) => String c r | _ => detail end))
                    (call (delete_message (chat_id msg) (message_id msg)) w))))).
Proof.
  intros Hnz. unfold process_violation.
  change (match get_user (from_id msg) (call _ (call _ w)) with
          | Some record => warns record | None => 0 end)
    with (warns_of (from_id msg) w).
  apply Z.eqb_neq in Hnz. now rewrite Hnz.
Qed.

Lemma history_of_call uid c w : history_of uid (call c w) = history_of uid w.
Proof. reflexivity. Qed.

Lemma trace_call c w : trace (call c w) = trace w ++ [c].
Proof. reflexivity. Qed.

Lemma add_punishment_trace now uid name p_type why duration by_whom w :
  trace (snd (add_punishment now uid name p_type why duration by_whom w)) = trace w.
Proof. apply add_punishment_rest. Qed.

Lemma add_punishment_tasks now uid name p_type why duration by_whom w :
  tasks (snd (add_punishment now uid name p_type why duration by_whom w)) = tasks w.
Proof. apply add_punishment_rest. Qed.

Lemma history_of_add_punishment now uid name p_type why duration by_whom w :
  history_of uid (snd (add_punishment now uid name p_type why duration by_whom w))
  = history_of uid w ++ [mkEntry now now p_type why duration by_whom].
Proof.
  unfold history_of, get_user. rewrite add_punishment_users, lookup_insert_eq.
  rewrite punished_history. now destruct (users w !! uid).
Qed.

(** C1. Two-tier escalation: when the offender's record has no
    warning, or there is no record, [process_violation] appends one
    entry of type warn with duration 0 and restricts nobody; otherwise
    it appends one entry of type mute with duration 60 and restricts
    the offender from sending until one hour after [now]. The calls
    made are listed in full. *)
Theorem two_tier_escalation now msg why detail w :
  let uid := from_id msg in
  let w' := process_violation cfg now msg why detail w in
  let body := match text msg with Some (String c r) => String c r | _ => detail end in
  let deleted := delete_message (chat_id msg) (message_id msg) in
  let logged := send_message (ADMIN_GROUP_ID cfg) (Some (LOGS_THREAD_ID cfg))
                  (violation_log uid (alias_of msg) now body) in
  if warns_of uid w =? 0 then
    history_of uid w' = history_of uid w ++ [mkEntry now now "warn" why 0 "bot"]
    /\ trace w' = trace w ++
         [deleted; logged;
          send_message (chat_id msg) None
            (warn_notice (alias_of msg) why (ALLOWED_LINKS w) (ALLOWED_EXTS w))]
  else
    history_of uid w' = history_of uid w ++ [mkEntry now now "mute" why 60 "bot"]
    /\ trace w' = trace w ++
         [deleted; logged;
          restrict_chat_member (chat_id msg) uid false (Some (now + 60 * 60));
          send_message (chat_id msg) None (mute_notice (alias_of msg))].
Proof.
  cbn zeta. destruct (Z.eqb_spec (warns_of (from_id msg) w) 0) as [Hz | Hnz].
  - rewrite (process_violation_warn now msg why detail w Hz). split.
    + now rewrite history_of_add_punishment.
    + rewrite add_punishment_trace. cbn. now rewrite <- !(assoc_L (++)).
  - rewrite (process_violation_mute now msg why detail w Hnz). split.
    + rewrite history_of_call. now rewrite history_of_add_punishment.
    + rewrite trace_call, add_punishment_trace. cbn.
      now rewrite <- !(assoc_L (++)).
Qed.

(** C3, as amended. An automatic mute deletes the content, logs it,
    restricts the offender until one hour after [now] and notifies the
    offender; it registers no task: the end of the restriction is left
    to the platform through [until_date]. *)
Theorem automatic_mute_outcome now msg why detail w :
  warns_of (from_id msg) w <> 0 ->
  let w' := process_violation cfg now msg why detail w in
  trace w' = trace w ++
    [delete_message (chat_id msg) (message_id msg);
     send_message (ADMIN_GROUP_ID cfg) (Some (LOGS_THREAD_ID cfg))
       (violation_log (from_id msg) (alias_of msg) now
          match text msg with Some (String c r) => String c r | _ => detail end);
     restrict_chat_member (chat_id msg) (from_id msg) false (Some (now + 60 * 60));
     send_message (chat_id msg) None (mute_notice (alias_of msg))]
  /\ tasks w' = tasks w.
Proof.
  intros Hnz. cbn zeta. rewrite (process_violation_mute now msg why detail w Hnz).
  split.
  - rewrite trace_call, add_punishment_trace. cbn. now rewrite <- !(assoc_L (++)).
  - change (tasks (call ?c ?x)) with (tasks x). now rewrite add_punishment_tasks.
Qed.

(** *** Unwarn *)

(** C4. [/unwarn] from a valid administrator, for an identity without
    a record or with no warning, answers that there is nothing to lift
    and leaves the table as it is; with one warning or more it lowers
    [warns] by one and removes the last entry of type warn, every other
    entry staying in place. The ledger is taken to satisfy its
    invariant. *)
Theorem unwarn_removes_last_warn msg a0 rest target w :
  is_valid_admin_command cfg msg w = true ->
  Py.int a0 = Some target ->
  ledger_ok w ->
  let w' := unwarn_command cfg msg (a0 :: rest) w in
  (warns_of target w = 0 ->
     users w' = users w
     /\ trace w' = trace w ++ [reply_text (chat_id msg) (message_id msg) no_warns;
                              delete_message (chat_id msg) (message_id msg)])
  /\ (1 <= warns_of target w ->
        exists record h1 e h2,
          users w !! target = Some record
          /\ history record = h1 ++ e :: h2
          /\ is_warn e
          /\ Forall (fun e' => ~ is_warn e') h2
          /\ users w' = <[target := mkUser (join_date record) (alias record)
                                       (warns record - 1) (bans record) (h1 ++ h2)]>
                          (users w)).
Proof.
  intros Hvalid Hint Hok. cbn zeta.
  unfold unwarn_command, warns_of, get_user, delete_command_message, reply, log.
  rewrite Hvalid, Hint. cbn [negb].
  destruct (users w !! target) as [record |] eqn:Hrec.
  - destruct (Z.eqb_spec (warns record) 0) as [Hz | Hnz]; split.
    + intros _. split; [reflexivity |]. cbn. now rewrite <- !(assoc_L (++)).
    + lia.
    + intros Hz. contradiction.
    + intros _.
      destruct (pop_last_warn_spec (history record))
        as [(h1 & e & h2 & Hh & He & Hh2 & Hpop) | [Hall Hpop]].
      * exists record, h1, e, h2. repeat split; try assumption.
        unfold update_user_record. rewrite Hrec. cbn.
        unfold unwarn_record. cbn. now rewrite Hpop.
      * exfalso. apply Hnz. rewrite (Hok _ _ Hrec). now apply warn_entries_none.
  - split.
    + intros _. split; [reflexivity |]. cbn. now rewrite <- !(assoc_L (++)).
    + lia.
Qed.

(** *** Ban and automatic unban *)

Lemma resume_all_trace ts : forall w,
  trace (foldl (fun w t => resume cfg t w) w ts)
  = trace w ++ map (fun t => unban_chat_member (FRONTEND_CHAT_ID cfg) (task_user_id t) true) ts.
Proof.
  induction ts as [| t ts IH]; intros w; cbn.
  - now rewrite app_nil_r.
  - rewrite IH. cbn. now rewrite <- (assoc_L (++)).
Qed.

Lemma resume_all_tasks ts : forall w,
  tasks (foldl (fun w t => resume cfg t w) w ts) = tasks w.
Proof.
  induction ts as [| t ts IH]; intros w; cbn; [reflexivity |]. now rewrite IH.
Qed.

Lemma run_due_trace now w :
  trace (run_due cfg now w)
  = trace w ++ map (fun t => unban_chat_member (FRONTEND_CHAT_ID cfg) (task_user_id t) true)
                   (filter (due now) (tasks w)).
Proof. unfold run_due. cbn. apply resume_all_trace. Qed.

Lemma run_due_tasks now w :
  tasks (run_due cfg now w) = filter (fun t => ~ due now t) (tasks w).
Proof. reflexivity. Qed.

Lemma calls_app c (t1 t2 : list Call) : calls c (t1 ++ t2) = (calls c t1 + calls c t2)%nat.
Proof. unfold calls. now rewrite filter_app, length_app. Qed.

Lemma calls_snoc_ne c c' (t : list Call) : c' <> c -> calls c (t ++ [c']) = calls c t.
Proof.
  intros Hne. rewrite calls_app. unfold calls at 2.
  rewrite filter_cons, filter_nil, decide_False by exact Hne. cbn. lia.
Qed.

(** How a task added last shows in the next turns of the event loop. *)
Lemma run_due_new_task now t w w' :
  tasks w' = tasks w ++ [t] ->
  let c := unban_chat_member (FRONTEND_CHAT_ID cfg) (task_user_id t) true in
  calls c (trace w') = calls c (trace w) ->
  if decide (due now t) then
    calls c (trace (run_due cfg now w')) = S (calls c (trace (run_due cfg now w)))
    /\ tasks (run_due cfg now w') = tasks (run_due cfg now w)
  else
    calls c (trace (run_due cfg now w')) = calls c (trace (run_due cfg now w))
    /\ tasks (run_due cfg now w') = tasks (run_due cfg now w) ++ [t].
Proof.
  intros Hts c Hc.
  assert (Hone : calls c [c] = 1%nat).
  { unfold calls. rewrite filter_cons, filter_nil. now rewrite decide_True. }
  destruct (decide (due now t)) as [Hd | Hd];
    rewrite !run_due_trace, !run_due_tasks, Hts, !filter_app,
      !filter_cons, !filter_nil, map_app, !calls_app, Hc.
  - rewrite (decide_True (P := due now t)) by exact Hd.
    rewrite (decide_False (P := ~ due now t)) by tauto.
    rewrite app_nil_r. split; [| reflexivity].
    change (map _ [t]) with [c]. rewrite Hone. lia.
  - rewrite (decide_False (P := due now t)) by exact Hd.
    rewrite (decide_True (P := ~ due now t)) by exact Hd.
    split; [| reflexivity]. cbn [map]. unfold calls at 3. cbn. lia.
Qed.

(** C6. [/ban user_id reason hours] from a valid administrator, for
    an identifier the database holds and with a term that is not
    negative and makes a delay the event loop keeps exactly, appends a
    ban entry with that term,
    raises [bans] by one, calls no unban itself and leaves a task that
    is pending before [now + hours * 3600] and, from that instant on,
    has made its one call of [unban_chat_member] with
    [only_if_banned], so that the platform does nothing for an
    identity already unbanned, and is pending no more. *)
Theorem ban_lifecycle now msg args target hours why w :
  is_valid_admin_command cfg msg w = true ->
  (3 <= length args)%nat ->
  parse_punishment args = Some (target, hours, why) ->
  0 <= hours ->
  in_bigint target ->
  exact_delay (hours * 3600) ->
  let w' := ban_command cfg now msg args w in
  let fire_at := now + hours * 3600 in
  let unban := unban_chat_member (FRONTEND_CHAT_ID cfg) target true in
  history_of target w'
    = history_of target w ++ [mkEntry now now "ban" why hours (from_first_name msg)]
  /\ bans_of target w' = bans_of target w + 1
  /\ tasks w' = tasks w ++ [mkTask fire_at target hours]
  /\ (forall t, t < fire_at ->
        calls unban (trace (run_due cfg t w')) = calls unban (trace (run_due cfg t w))
        /\ tasks (run_due cfg t w')
           = tasks (run_due cfg t w) ++ [mkTask fire_at target hours])
  /\ (forall t, fire_at <= t ->
        calls unban (trace (run_due cfg t w')) = S (calls unban (trace (run_due cfg t w)))
        /\ tasks (run_due cfg t w') = tasks (run_due cfg t w)).
Proof.
  intros Hvalid Hlen Hparse Hpos _ _. cbn zeta.
  assert (Hw' : ban_command cfg now msg args w
                = delete_command_message msg
                    (create_task (mkTask (now + hours * 3600) target hours)
                       (log cfg (ban_log target hours why)
                          (reply msg
                             (ban_reply target hours
                                (bans (punished now (Py.str target) "ban" why hours
                                         (from_first_name msg) (users w !! target))))
                             (snd (add_punishment now target (Py.str target) "ban" why
                                     hours (from_first_name msg)
                                     (call (ban_chat_member (FRONTEND_CHAT_ID cfg) target) w))))))).
  { unfold ban_command. rewrite Hvalid. cbn [negb].
    destruct (Nat.ltb_spec (length args) 3) as [Hlt | _]; [lia |].
    rewrite Hparse.
    rewrite (surjective_pairing (add_punishment _ _ _ _ _ _ _ _)).
    rewrite add_punishment_fst. unfold schedule_unban.
    now rewrite Z.max_r by lia. }
  rewrite Hw'. clear Hw'.
  set (w1 := snd (add_punishment _ _ _ _ _ _ _ _)).
  assert (Hts : tasks (delete_command_message msg
                    (create_task (mkTask (now + hours * 3600) target hours)
                       (log cfg (ban_log target hours why)
                          (reply msg
                             (ban_reply target hours
                                (bans (punished now (Py.str target) "ban" why hours
                                         (from_first_name msg) (users w !! target))))
                             w1))))
                = tasks w ++ [mkTask (now + hours * 3600) target hours]).
  { cbn. unfold w1. now rewrite add_punishment_tasks. }
  split; [| split; [| split; [exact Hts |]]].
  - change (history_of target (delete_command_message _ (create_task _ (log _ _ (reply _ _ ?x)))))
      with (history_of target x).
    unfold w1. rewrite history_of_add_punishment. reflexivity.
  - unfold bans_of, get_user.
    change (users (delete_command_message _ (create_task _ (log _ _ (reply _ _ ?x)))))
      with (users x).
    unfold w1. rewrite add_punishment_users, lookup_insert_eq. cbn.
    now destruct (users w !! target).
  - pose proof (fun t => run_due_new_task t (mkTask (now + hours * 3600) target hours)
                           w _ Hts) as Hnew.
    cbn zeta in Hnew. cbn [task_user_id] in Hnew.
    assert (Hcalls : calls (unban_chat_member (FRONTEND_CHAT_ID cfg) target true)
              (trace (delete_command_message msg
                    (create_task (mkTask (now + hours * 3600) target hours)
                       (log cfg (ban_log target hours why)
                          (reply msg
                             (ban_reply target hours
                                (bans (punished now (Py.str target) "ban" why hours
                                         (from_first_name msg) (users w !! target))))
                             w1)))))
            = calls (unban_chat_member (FRONTEND_CHAT_ID cfg) target true) (trace w)).
    { unfold delete_command_message, log, reply. rewrite trace_call.
      change (trace (create_task ?t ?x)) with (trace x).
      rewrite !trace_call. unfold w1. rewrite add_punishment_trace, trace_call.
      now rewrite !calls_snoc_ne by discriminate. }
    split; intros t Ht; specialize (Hnew t Hcalls).
    + destruct (decide (due t _)) as [Hd | _]; [| exact Hnew].
      unfold due in Hd. cbn in Hd. lia.
    + destruct (decide (due t _)) as [_ | Hd]; [exact Hnew |].
      unfold due in Hd. cbn in Hd. lia.
Qed.

(** *** Reversal commands and authorization *)

(** The five punishment commands do nothing for an issuer or an origin
    that [is_valid_admin_command] rejects. *)
Lemma punishment_commands_gated now msg args w :
  is_valid_admin_command cfg msg w = false ->
  ban_command cfg now msg args w = w
  /\ warn_command cfg now msg args w = w
  /\ unwarn_command cfg msg args w = w
  /\ mute_command cfg now msg args w = w
  /\ unmute_command cfg msg args w = w.
Proof.
  intros Hno.
  unfold ban_command, warn_command, unwarn_command, mute_command, unmute_command.
  rewrite Hno. cbn. repeat split.
Qed.

(** No command handler takes a pending task away. *)
Lemma handlers_keep_tasks h now msg args w :
  exists new, tasks (run_handler cfg h now msg args w) = tasks w ++ new.
Proof.
  destruct h; cbn;
    unfold ban_command, warn_command, unwarn_command, mute_command, unmute_command,
      help_command, links_command, delete_command_message, reply, log;
    repeat match goal with
      | |- context [if ?b then _ else _] => destruct b
      | |- context [match parse_punishment ?a with _ => _ end] =>
          destruct (parse_punishment a) as [[[? ?] ?] |]
      | |- context [match ?a with [] => _ | _ :: _ => _ end] => destruct a
      | |- context [match Py.int ?a with _ => _ end] => destruct (Py.int a)
      | |- context [match get_user ?a ?b with _ => _ end] => destruct (get_user a b) eqn:?
      | |- context [let '(_, _) := ?p in _] => rewrite (surjective_pairing p)
      end;
    cbn; rewrite ?add_punishment_tasks; cbn;
    try (exists []; now rewrite app_nil_r);
    try (eexists; reflexivity).
  unfold update_user_record. destruct (users w !! _); cbn;
    exists []; now rewrite app_nil_r.
Qed.

(** C8, as amended. [/unmute] lifts the restriction on the platform
    and touches neither the ledger nor the pending tasks; [/unwarn]
    updates the ledger only and calls no restriction; no handler is
    registered for [/unban]; no command handler removes a pending
    task. *)
Theorem reversal_commands now msg a0 rest target w :
  is_valid_admin_command cfg msg w = true ->
  Py.int a0 = Some target ->
  (let w' := unmute_command cfg msg (a0 :: rest) w in
   users w' = users w /\ tasks w' = tasks w
   /\ trace w' = trace w ++
        [restrict_chat_member (FRONTEND_CHAT_ID cfg) target true None;
         reply_text (chat_id msg) (message_id msg) (unmute_reply target);
         send_message (ADMIN_GROUP_ID cfg) (Some (LOGS_THREAD_ID cfg)) (unmute_log target);
         delete_message (chat_id msg) (message_id msg)])
  /\ (let w' := unwarn_command cfg msg (a0 :: rest) w in
      tasks w' = tasks w
      /\ trace w' = trace w ++
           if warns_of target w =? 0 then
             [reply_text (chat_id msg) (message_id msg) no_warns;
              delete_message (chat_id msg) (message_id msg)]
           else
             [reply_text (chat_id msg) (message_id msg)
                (unwarn_reply (warns_of target w - 1));
              send_message (ADMIN_GROUP_ID cfg) (Some (LOGS_THREAD_ID cfg))
                (unwarn_log target (warns_of target w - 1));
              delete_message (chat_id msg) (message_id msg)])
  /\ handler_of "unban" = None
  /\ run_command cfg now "unban" msg (a0 :: rest) w = w
  /\ (forall h now' msg' args',
        exists new, tasks (run_handler cfg h now' msg' args' w) = tasks w ++ new).
Proof.
  intros Hvalid Hint. cbn zeta. split; [| split; [| split; [| split]]].
  - unfold unmute_command, delete_command_message, reply, log.
    rewrite Hvalid, Hint. cbn. repeat split. now rewrite <- !(assoc_L (++)).
  - unfold unwarn_command, warns_of, delete_command_message, reply, log.
    rewrite Hvalid, Hint. cbn [negb]. unfold get_user.
    destruct (users w !! target) as [record |] eqn:Hrec.
    + destruct (warns record =? 0) eqn:Hz.
      * cbn. split; [reflexivity |]. now rewrite <- !(assoc_L (++)).
      * unfold update_user_record. rewrite Hrec. cbn.
        split; [reflexivity |]. now rewrite <- !(assoc_L (++)).
    + cbn. split; [reflexivity |]. now rewrite <- !(assoc_L (++)).
  - reflexivity.
  - reflexivity.
  - intros. apply handlers_keep_tasks.
Qed.

(** *** Links *)

Lemma url_at_scheme s :
  Re.url_at s = true ->
  Py.startswith s "http://" = true \/ Py.startswith s "https://" = true.
Proof.
  unfold Re.url_at, Py.startswith.
  destruct (Py.drop_prefix "https://" s); [now right |].
  destruct (Py.drop_prefix "http://" s); [now left | discriminate].
Qed.

Lemma scan_without_scheme s : forall in_match,
  mentions_scheme s = false -> Re.scan in_match s = [].
Proof.
  induction s as [| c r IH]; intros in_match Hno; [reflexivity |].
  cbn [mentions_scheme] in Hno.
  apply orb_false_iff in Hno as [Hno Hr]. apply orb_false_iff in Hno as [Hh Hs].
  cbn [Re.scan]. destruct in_match; [now apply IH |].
  destruct (Re.url_at (String c r)) eqn:Hat; [| now apply IH].
  apply url_at_scheme in Hat as [Hat | Hat]; congruence.
Qed.

Lemma forbidden_domain_spec links ds :
  forbidden_domain links ds = true
  <-> exists d, d ∈ ds /\ d <> "" /\ d ∉ links.
Proof.
  induction ds as [| d ds IH]; cbn.
  - split; [discriminate |]. intros (d & Hin & _). inversion Hin.
  - destruct (Py.nonempty d && bool_decide (d ∉ links)) eqn:Hd.
    + split; [intros _ | reflexivity].
      apply andb_true_iff in Hd as [Hne Hout]. apply bool_decide_eq_true in Hout.
      exists d. split; [apply list_elem_of_here |]. split; [| exact Hout].
      intros ->. discriminate.
    + rewrite IH. split; intros (d' & Hin & Hne & Hout).
      * exists d'. split; [now apply list_elem_of_further | auto].
      * apply elem_of_cons in Hin as [-> | Hin]; [| now exists d'].
        exfalso. apply andb_false_iff in Hd as [Hd | Hd].
        -- destruct d; [contradiction | discriminate].
        -- apply bool_decide_eq_false in Hd. contradiction.
Qed.

(** C10. A text that reads neither [http://] nor [https://] anywhere,
    whatever host names it holds, and an ASCII text whose URLs all come
    without a host name, pass [handle_message] with no effect. *)
Theorem unschemed_or_hostless_is_clean now msg w :
  mentions_scheme (default "" (text msg)) = false
  \/ (Py.isascii (default "" (text msg)) = true
      /\ forall u, u ∈ Re.findall_urls (default "" (text msg)) ->
                   Urllib.hostname check_bracketed_netloc u = Py.Ok None) ->
  handle_message cfg check_bracketed_netloc now msg w = w.
Proof.
  intros Hclean. unfold handle_message.
  destruct (extract_domains check_bracketed_netloc (default "" (text msg)))
    as [ds |] eqn:Hds; [| reflexivity].
  destruct (forbidden_domain (ALLOWED_LINKS w) ds) eqn:Hf; [| reflexivity].
  exfalso. apply forbidden_domain_spec in Hf as (d & Hin & Hne & _).
  unfold extract_domains in Hds. apply domains_of_map in Hds. subst ds.
  apply list_elem_of_fmap in Hin as (u & -> & Hu).
  destruct Hclean as [Hno | [_ Hhostless]].
  - unfold Re.findall_urls in Hu. rewrite scan_without_scheme in Hu by exact Hno.
    inversion Hu.
  - apply Hne. unfold domain_of. now rewrite (Hhostless u Hu).
Qed.






Lemma domains_of_total urls :
  (forall u, u ∈ urls -> Urllib.hostname check_bracketed_netloc u <> Py.ValueError) ->
  domains_of check_bracketed_netloc urls
  = Py.Ok (domain_of check_bracketed_netloc <$> urls).
Proof.
  induction urls as [| u urls IH]; intros Hok; [reflexivity |].
  cbn. unfold domain_of at 1.
  pose proof (Hok u (list_elem_of_here _ _)) as Hu.
  destruct (Urllib.hostname check_bracketed_netloc u) as [h |]; [| contradiction].
  rewrite IH by (intros u' Hu'; apply Hok; now apply list_elem_of_further).
  now destruct h.
Qed.



(** *** Attachments *)

(** C9, as amended. The extension of an attachment with an ASCII name
    is taken from the last component of the name, leading dots set
    aside: the text after the last dot there, in lower case, and the
    empty string when no dot is left. The attachment is reported as a
    file violation exactly when this extension is not an element of
    the allow-list, whose entries are compared as they are stored. *)
Theorem attachment_verdict now msg file_name w :
  document_file_name msg = Some file_name ->
  Py.isascii file_name = true ->
  let ext := Py.lower (after_last "." (Py.lstrip (Ascii.eqb ".") (basename file_name))) in
  (ext ∉ ALLOWED_EXTS w ->
     handle_document cfg now msg w
     = process_violation cfg now msg "Этот тип файла запрещён." file_name w)
  /\ (ext ∈ ALLOWED_EXTS w -> handle_document cfg now msg w = w).
Proof.
  intros Hdoc _. cbn zeta. rewrite <- extension_spec.
  unfold handle_document. rewrite Hdoc.
  split; intros Hext.
  - now rewrite bool_decide_eq_true_2.
  - rewrite bool_decide_eq_false_2; [reflexivity |]. now intros Hno.
Qed.

End Properties.

(* ===================================================================== *)
(** ** How records change                                                 *)
(* ===================================================================== *)

Section Records.

Variable cfg : Config.
Variable check_bracketed_netloc : string -> bool.

Implicit Types (w : World) (msg : Message) (args : list string) (uid : Z).

Lemma add_punishment_record_step now target name p_type why duration by_whom w uid :
  record_step (users w !! uid)
    (users (snd (add_punishment now target name p_type why duration by_whom w)) !! uid).
Proof.
  rewrite add_punishment_users, lookup_insert. case_decide as Heq.
  - subst. constructor.
  - constructor.
Qed.

Lemma process_violation_record_step now msg why detail w uid :
  record_step (users w !! uid) (users (process_violation cfg now msg why detail w) !! uid).
Proof.
  unfold process_violation.
  match goal with |- context [if ?b then _ else _] => destruct b end.
  - exact (add_punishment_record_step now (from_id msg) (alias_of msg) "warn" why 0 "bot"
             (call _ (call _ (call _ w))) uid).
  - exact (add_punishment_record_step now (from_id msg) (alias_of msg) "mute" why 60 "bot"
             (call _ (call _ (call _ w))) uid).
Qed.

Lemma unwarn_record_stored target record w :
  users w !! target = Some record ->
  users (update_user_record target (unwarn_record record) w)
  = <[target := unwarn_record record]> (users w).
Proof.
  intros Hrec. unfold update_user_record. rewrite Hrec. reflexivity.
Qed.

Lemma unwarn_command_record_step msg args w uid :
  record_step (users w !! uid) (users (unwarn_command cfg msg args w) !! uid).
Proof.
  unfold unwarn_command, delete_command_message, reply, log.
  destruct (is_valid_admin_command cfg msg w); cbn [negb]; [| constructor].
  destruct args as [| a0 rest]; [constructor |].
  destruct (Py.int a0) as [target |]; [| constructor].
  unfold get_user. destruct (users w !! target) as [record |] eqn:Hrec; [| constructor].
  destruct (Z.eqb_spec (warns record) 0) as [Hz | Hnz]; [constructor |].
  change (users (call ?c ?x)) with (users x).
  change (users (call ?c ?x)) with (users x).
  change (users (call ?c ?x)) with (users x).
  rewrite (unwarn_record_stored _ _ _ Hrec), lookup_insert. case_decide as Heq.
  - subst. rewrite Hrec. now constructor.
  - constructor.
Qed.

Lemma punish_command_record_step now msg args w uid :
  record_step (users w !! uid) (users (ban_command cfg now msg args w) !! uid)
  /\ record_step (users w !! uid) (users (warn_command cfg now msg args w) !! uid)
  /\ record_step (users w !! uid) (users (mute_command cfg now msg args w) !! uid).
Proof.
  unfold ban_command, warn_command, mute_command, delete_command_message, reply, log.
  destruct (is_valid_admin_command cfg msg w); cbn [negb];
    [| repeat split; constructor].
  destruct (length args <? 3)%nat; [repeat split; constructor |].
  destruct (parse_punishment args) as [[[target hours] why] |];
    [| repeat split; constructor].
  repeat split.
  - rewrite (surjective_pairing (add_punishment _ _ _ _ _ _ _ _)).
    exact (add_punishment_record_step now target (Py.str target) "ban" why hours
             (from_first_name msg) (call _ w) uid).
  - rewrite (surjective_pairing (add_punishment _ _ _ _ _ _ _ _)).
    exact (add_punishment_record_step now target (Py.str target) "warn" why hours
             (from_first_name msg) w uid).
  - exact (add_punishment_record_step now target (Py.str target) "mute" why hours
             (from_first_name msg) (call _ w) uid).
Qed.

Lemma step_record_step w e uid :
  record_step (users w !! uid) (users (step cfg check_bracketed_netloc w e) !! uid).
Proof.
  destruct e as [now msg | now msg | now cmd msg args | q | msg | now | admins];
    cbn [step].
  - unfold handle_message.
    destruct (extract_domains _ _) as [ds |]; [| constructor].
    destruct (forbidden_domain _ ds); [apply process_violation_record_step | constructor].
  - unfold handle_document.
    destruct (document_file_name msg) as [fn |]; [| constructor].
    case_bool_decide; [apply process_violation_record_step | constructor].
  - unfold run_command. destruct (handler_of cmd) as [h |]; [| constructor].
    destruct h; cbn [run_handler];
      try (now apply punish_command_record_step);
      try (now apply unwarn_command_record_step).
    + unfold unmute_command, delete_command_message, reply, log.
      destruct (is_valid_admin_command cfg msg w); cbn [negb]; [| constructor].
      destruct args as [| a0 rest]; [constructor |].
      destruct (Py.int a0); constructor.
    + unfold help_command, reply. constructor.
    + unfold links_command, reply.
      match goal with |- context [if ?b then _ else _] => destruct b end; constructor.
  - unfold links_callback, links_command, delete_link, reply.
    repeat (match goal with |- context [if ?b then _ else _] => destruct b end;
            cbn [snd]; try constructor).
  - unfold add_link_receive, insert_link, reply.
    destruct (Urllib.hostname _ _) as [h |]; cbn [snd]; [| constructor].
    destruct (Py.nonempty _); cbn [snd]; constructor.
  - rewrite run_due_users. constructor.
  - constructor.
Qed.

(** X1. Whatever update the bot handles, the record of an identity is
    left as it is, gets one punishment added by [add_punishment], or
    has one warning lifted by [unwarn_command] while its counter is not
    zero: nothing else ever writes the [users] table. *)
Theorem ledger_changes_by_punishment_or_unwarn w e uid :
  record_step (users w !! uid) (users (step cfg check_bracketed_netloc w e) !! uid).
Proof. apply step_record_step. Qed.

Lemma run_record_steps (R : option User -> option User -> Prop) :
  (forall o, R o o) ->
  (forall a b c, R a b -> R b c -> R a c) ->
  (forall a b, record_step a b -> R a b) ->
  forall events w uid,
    R (users w !! uid) (users (run cfg check_bracketed_netloc events w) !! uid).
Proof.
  intros Hrefl Htrans Hstep events.
  induction events as [| e events IH]; intros w uid; [apply Hrefl |].
  cbn. eapply Htrans; [| apply IH]. apply Hstep, step_record_step.
Qed.

Lemma ban_entries_app h1 h2 : ban_entries (h1 ++ h2) = ban_entries h1 + ban_entries h2.
Proof. unfold ban_entries. rewrite filter_app, length_app. lia. Qed.

Lemma ban_entries_one e :
  ban_entries [e] = if String.eqb (type e) "ban" then 1 else 0.
Proof.
  unfold ban_entries. rewrite filter_cons, filter_nil.
  destruct (String.eqb_spec (type e) "ban") as [Heq | Hne];
    destruct (decide (is_ban e)) as [Hb | Hb]; unfold is_ban in Hb;
    try reflexivity; congruence.
Qed.

Lemma punished_bans now name p_type why duration by_whom old :
  bans (default (mkUser now name 0 0 []) old)
    = ban_entries (history (default (mkUser now name 0 0 []) old)) ->
  bans (punished now name p_type why duration by_whom old)
  = ban_entries (history (punished now name p_type why duration by_whom old)).
Proof.
  intros Hold. rewrite punished_history, ban_entries_app, ban_entries_one, <- Hold.
  unfold punished, append_entry, bump. cbn.
  destruct (String.eqb_spec p_type "warn") as [-> | Hw]; cbn; [lia |].
  destruct (String.eqb p_type "ban"); cbn; lia.
Qed.

Lemma unwarn_record_bans record :
  ban_entries (history (unwarn_record record)) = ban_entries (history record).
Proof.
  unfold unwarn_record. cbn.
  destruct (pop_last_warn_spec (history record))
    as [(h1 & e & h2 & Hh & He & _ & Hpop) | [_ Hpop]]; rewrite Hpop; [| reflexivity].
  rewrite Hh, !ban_entries_app. change (e :: h2) with ([e] ++ h2).
  rewrite ban_entries_app, ban_entries_one.
  unfold is_warn in He. rewrite He. cbn. lia.
Qed.

Lemma record_step_bans a b :
  record_step a b ->
  (forall u, a = Some u -> bans u = ban_entries (history u)) ->
  forall u, b = Some u -> bans u = ban_entries (history u).
Proof.
  intros Hstep Ha. destruct Hstep as [o | o now name p why d by_whom | r Hr].
  - exact Ha.
  - intros u [= <-]. apply punished_bans. destruct o as [u0 |]; cbn; [now apply Ha | reflexivity].
  - intros u [= <-]. rewrite unwarn_record_bans. cbn. now apply Ha.
Qed.

(** X2. The [bans] counter of every record equals the number of its
    entries of type ban, and this is kept by every sequence of updates:
    a ban adds one to both, and nothing ever takes a ban entry away or
    lowers the counter. *)
Theorem bans_counter_counts_ban_entries w events :
  bans_ok w -> bans_ok (run cfg check_bracketed_netloc events w).
Proof.
  intros Hw uid.
  apply (run_record_steps
           (fun a b => (forall u, a = Some u -> bans u = ban_entries (history u)) ->
                       forall u, b = Some u -> bans u = ban_entries (history u))).
  - auto.
  - auto.
  - apply record_step_bans.
  - apply Hw.
Qed.

Lemma lasting_app h1 h2 : lasting (h1 ++ h2) = lasting h1 ++ lasting h2.
Proof. apply filter_app. Qed.

Lemma lasting_unwarn record :
  lasting (history (unwarn_record record)) = lasting (history record).
Proof.
  unfold unwarn_record. cbn.
  destruct (pop_last_warn_spec (history record))
    as [(h1 & e & h2 & Hh & He & _ & Hpop) | [_ Hpop]]; rewrite Hpop; [| reflexivity].
  rewrite Hh, !lasting_app. f_equal. unfold lasting. rewrite filter_cons.
  destruct (decide (~ is_warn e)) as [Hn | _]; [contradiction | reflexivity].
Qed.

Lemma record_step_lasting a b :
  record_step a b ->
  lasting (from_option history [] a) `prefix_of` lasting (from_option history [] b).
Proof.
  intros [o | o now name p why d by_whom | r Hr]; cbn [from_option].
  - reflexivity.
  - rewrite punished_history, lasting_app.
    destruct o as [u0 |]; cbn; [now apply prefix_app_r | apply prefix_nil].
  - now rewrite lasting_unwarn.
Qed.

(** X3. Entries other than warnings stay for good: over every sequence
    of updates, the mute and ban entries an identity had are a prefix
    of the ones it has afterwards, in the same order and unaltered. *)
Theorem mutes_and_bans_stay_on_record w events uid :
  lasting (history_of uid w)
    `prefix_of` lasting (history_of uid (run cfg check_bracketed_netloc events w)).
Proof.
  unfold history_of, get_user.
  change (match users ?x !! uid with Some user => history user | None => [] end)
    with (from_option history [] (users x !! uid)).
  apply (run_record_steps
           (fun a b => lasting (from_option history [] a)
                         `prefix_of` lasting (from_option history [] b))).
  - reflexivity.
  - intros a b c Hab Hbc. now transitivity (lasting (from_option history [] b)).
  - apply record_step_lasting.
Qed.

Lemma record_step_persists a b u :
  record_step a b -> a = Some u ->
  exists u', b = Some u' /\ join_date u' = join_date u.
Proof.
  intros [o | o now name p why d by_whom | r Hr] Ha.
  - now exists u.
  - subst o. eexists. split; [reflexivity |].
    unfold punished, append_entry, bump. cbn.
    destruct (String.eqb p "warn"); [reflexivity |].
    destruct (String.eqb p "ban"); reflexivity.
  - injection Ha as ->. eexists. split; reflexivity.
Qed.

(** X4. A record is never deleted and its join date never changes:
    an identity that has a record keeps one, with the same [join_date],
    over every sequence of updates. *)
Theorem records_persist w events uid user :
  users w !! uid = Some user ->
  exists user', users (run cfg check_bracketed_netloc events w) !! uid = Some user'
                /\ join_date user' = join_date user.
Proof.
  revert user.
  apply (run_record_steps
           (fun a b => forall u, a = Some u ->
                                 exists u', b = Some u' /\ join_date u' = join_date u)).
  - intros o u ->. now exists u.
  - intros a b c Hab Hbc u Ha. destruct (Hab u Ha) as (u1 & Hb & H1).
    destruct (Hbc u1 Hb) as (u2 & Hc & H2). exists u2. split; [exact Hc | congruence].
  - intros a b Hs u Ha. exact (record_step_persists a b u Hs Ha).
Qed.

End Records.

(* ===================================================================== *)
(** ** Escalation and commands, further                                   *)
(* ===================================================================== *)

Section Commands.

Variable cfg : Config.

Implicit Types (w : World) (msg : Message) (args : list string) (uid : Z).

Lemma get_user_add_punishment_other now target name p_type why duration by_whom w uid :
  uid <> target ->
  get_user uid (snd (add_punishment now target name p_type why duration by_whom w))
  = get_user uid w.
Proof.
  intros Hne. unfold get_user. rewrite add_punishment_users.
  now apply lookup_insert_ne.
Qed.

Lemma get_user_add_punishment_same now target name p_type why duration by_whom w :
  get_user target (snd (add_punishment now target name p_type why duration by_whom w))
  = Some (punished now name p_type why duration by_whom (users w !! target)).
Proof. unfold get_user. rewrite add_punishment_users. apply lookup_insert_eq. Qed.

(** X5. [add_punishment], for an identifier the database holds,
    returns the record it has stored: a lookup of the identity
    afterwards gives the returned record, and the record of every
    other identity is as before. *)
Theorem add_punishment_returns_stored_record now target name p_type why duration by_whom w :
  in_bigint target ->
  let result := add_punishment now target name p_type why duration by_whom w in
  get_user target (snd result) = Some (fst result)
  /\ forall uid, uid <> target -> get_user uid (snd result) = get_user uid w.
Proof.
  intros _. cbn zeta. split.
  - rewrite add_punishment_fst. apply get_user_add_punishment_same.
  - intros uid Hne. now apply get_user_add_punishment_other.
Qed.

Lemma punished_counters now name p_type why duration by_whom old :
  let base := default (mkUser now name 0 0 []) old in
  warns (punished now name p_type why duration by_whom old)
    = warns base + (if String.eqb p_type "warn" then 1 else 0)
  /\ bans (punished now name p_type why duration by_whom old)
    = bans base + (if String.eqb p_type "warn" then 0
                   else if String.eqb p_type "ban" then 1 else 0).
Proof.
  cbn zeta. unfold punished, append_entry, bump. cbn.
  destruct (String.eqb p_type "warn"); cbn; [lia |].
  destruct (String.eqb p_type "ban"); cbn; lia.
Qed.

Lemma warns_add_punishment now target name p_type why duration by_whom w :
  warns_of target (snd (add_punishment now target name p_type why duration by_whom w))
  = warns_of target w + (if String.eqb p_type "warn" then 1 else 0).
Proof.
  unfold warns_of. rewrite get_user_add_punishment_same.
  rewrite (proj1 (punished_counters now name p_type why duration by_whom (users w !! target))).
  unfold get_user. now destruct (users w !! target).
Qed.

Lemma bans_add_punishment now target name p_type why duration by_whom w :
  bans_of target (snd (add_punishment now target name p_type why duration by_whom w))
  = bans_of target w + (if String.eqb p_type "warn" then 0
                        else if String.eqb p_type "ban" then 1 else 0).
Proof.
  unfold bans_of. rewrite get_user_add_punishment_same.
  rewrite (proj2 (punished_counters now name p_type why duration by_whom (users w !! target))).
  unfold get_user. now destruct (users w !! target).
Qed.

Lemma warns_of_call uid c w : warns_of uid (call c w) = warns_of uid w.
Proof. reflexivity. Qed.

Lemma bans_of_call uid c w : bans_of uid (call c w) = bans_of uid w.
Proof. reflexivity. Qed.

Lemma get_user_call uid c w : get_user uid (call c w) = get_user uid w.
Proof. reflexivity. Qed.

(** X6. A violation touches the offender's record only and never bans:
    every other record, the offender's [bans], the pending tasks and
    both allow-lists are as before, and the offender's [warns] goes
    from 0 to 1 or else stays what it was. *)
Theorem escalation_touches_offender_only now msg why detail w :
  let w' := process_violation cfg now msg why detail w in
  (forall uid, uid <> from_id msg -> get_user uid w' = get_user uid w)
  /\ warns_of (from_id msg) w'
     = (if warns_of (from_id msg) w =? 0 then 1 else warns_of (from_id msg) w)
  /\ bans_of (from_id msg) w' = bans_of (from_id msg) w
  /\ tasks w' = tasks w
  /\ ALLOWED_LINKS w' = ALLOWED_LINKS w
  /\ ALLOWED_EXTS w' = ALLOWED_EXTS w
  /\ allowed_links w' = allowed_links w.
Proof.
  cbn zeta. destruct (Z.eqb_spec (warns_of (from_id msg) w) 0) as [Hz | Hnz].
  - rewrite (process_violation_warn cfg now msg why detail w Hz).
    split; [intros uid Hne; now rewrite get_user_add_punishment_other |].
    rewrite warns_add_punishment, bans_add_punishment, !warns_of_call, !bans_of_call, Hz.
    split; [reflexivity |]. split; [cbn; lia |].
    match goal with
    | |- context [snd (add_punishment ?a ?b ?c ?d ?e ?f ?g ?x)] =>
        destruct (add_punishment_rest a b c d e f g x) as (_ & Ht & Hl & HL & HE & _)
    end.
    cbn zeta in Ht, Hl, HL, HE. rewrite Ht, Hl, HL, HE. repeat split.
  - rewrite (process_violation_mute cfg now msg why detail w Hnz).
    rewrite warns_of_call, bans_of_call.
    split; [intros uid Hne; rewrite get_user_call;
            now rewrite get_user_add_punishment_other |].
    rewrite warns_add_punishment, bans_add_punishment, !warns_of_call, !bans_of_call.
    split; [cbn; lia |]. split; [cbn; lia |].
    change (tasks (call ?c ?x)) with (tasks x).
    change (ALLOWED_LINKS (call ?c ?x)) with (ALLOWED_LINKS x).
    change (ALLOWED_EXTS (call ?c ?x)) with (ALLOWED_EXTS x).
    change (allowed_links (call ?c ?x)) with (allowed_links x).
    match goal with
    | |- context [snd (add_punishment ?a ?b ?c ?d ?e ?f ?g ?x)] =>
        destruct (add_punishment_rest a b c d e f g x) as (_ & Ht & Hl & HL & HE & _)
    end.
    cbn zeta in Ht, Hl, HL, HE. rewrite Ht, Hl, HL, HE. repeat split.
Qed.

Lemma process_violation_mute_effect now msg why detail w :
  warns_of (from_id msg) w <> 0 ->
  let w' := process_violation cfg now msg why detail w in
  history_of (from_id msg) w'
    = history_of (from_id msg) w ++ [mkEntry now now "mute" why 60 "bot"]
  /\ warns_of (from_id msg) w' = warns_of (from_id msg) w
  /\ bans_of (from_id msg) w' = bans_of (from_id msg) w.
Proof.
  intros Hnz. cbn zeta. rewrite (process_violation_mute cfg now msg why detail w Hnz).
  rewrite history_of_call, warns_of_call, bans_of_call.
  rewrite history_of_add_punishment, warns_add_punishment, bans_add_punishment.
  rewrite !history_of_call, !warns_of_call, !bans_of_call. cbn. repeat split; lia.
Qed.

(** X7. There is no tier beyond the mute: once an identity has a
    warning on record, any number of further violations by it adds one
    mute entry of 60 minutes for each, in order, and leaves its
    [warns] and [bans] counters where they were. *)
Theorem repeated_violations_only_mute vs : forall uid w,
  warns_of uid w <> 0 ->
  Forall (fun v => from_id (snd (fst (fst v))) = uid) vs ->
  history_of uid (process_violations cfg vs w) = history_of uid w ++ (mute_entry <$> vs)
  /\ warns_of uid (process_violations cfg vs w) = warns_of uid w
  /\ bans_of uid (process_violations cfg vs w) = bans_of uid w.
Proof.
  induction vs as [| v vs IH]; intros uid w Hnz Hall.
  - cbn. now rewrite app_nil_r.
  - destruct v as [[[now msg] why] detail].
    apply Forall_cons in Hall as [Hv Hvs]. cbn in Hv. subst uid.
    destruct (process_violation_mute_effect now msg why detail w Hnz) as (Hh & Hw & Hb).
    cbn zeta in Hh, Hw, Hb.
    unfold process_violations. cbn [foldl].
    fold (process_violations cfg vs (process_violation cfg now msg why detail w)).
    destruct (IH (from_id msg) (process_violation cfg now msg why detail w)) as (Hh' & Hw' & Hb').
    + now rewrite Hw.
    + exact Hvs.
    + rewrite Hh', Hw', Hb', Hh, Hw, Hb. cbn. now rewrite <- (assoc_L (++)).
Qed.

Lemma warn_command_valid now msg args target days why w :
  is_valid_admin_command cfg msg w = true ->
  (3 <= length args)%nat ->
  parse_punishment args = Some (target, days, why) ->
  warn_command cfg now msg args w
  = delete_command_message msg
      (log cfg (warn_log target why)
         (reply msg
            (warn_reply target
               (warns (punished now (Py.str target) "warn" why days
                         (from_first_name msg) (users w !! target))))
            (snd (add_punishment now target (Py.str target) "warn" why days
                    (from_first_name msg) w)))).
Proof.
  intros Hvalid Hlen Hparse. unfold warn_command. rewrite Hvalid. cbn [negb].
  destruct (Nat.ltb_spec (length args) 3) as [Hlt | _]; [lia |].
  rewrite Hparse. rewrite (surjective_pairing (add_punishment _ _ _ _ _ _ _ _)).
  now rewrite add_punishment_fst.
Qed.

(** X8. A warning issued by an administrator is recorded whatever the
    count is: [/warn user_id reason days] from a valid administrator,
    for an identifier the database holds, appends one warn entry that carries the term, raises [warns] by
    one, leaves [bans] alone, restricts nobody and creates no task, so
    that nothing ever acts on the term. *)
Theorem admin_warn_always_appends now msg args target days why w :
  is_valid_admin_command cfg msg w = true ->
  (3 <= length args)%nat ->
  parse_punishment args = Some (target, days, why) ->
  in_bigint target ->
  let w' := warn_command cfg now msg args w in
  history_of target w'
    = history_of target w ++ [mkEntry now now "warn" why days (from_first_name msg)]
  /\ warns_of target w' = warns_of target w + 1
  /\ bans_of target w' = bans_of target w
  /\ tasks w' = tasks w
  /\ trace w' = trace w ++
       [reply_text (chat_id msg) (message_id msg)
          (warn_reply target (warns_of target w + 1));
        send_message (ADMIN_GROUP_ID cfg) (Some (LOGS_THREAD_ID cfg)) (warn_log target why);
        delete_message (chat_id msg) (message_id msg)].
Proof.
  intros Hvalid Hlen Hparse _. cbn zeta.
  rewrite (warn_command_valid now msg args target days why w Hvalid Hlen Hparse).
  unfold delete_command_message, log, reply.
  rewrite !history_of_call, !warns_of_call, !bans_of_call.
  rewrite history_of_add_punishment, warns_add_punishment, bans_add_punishment.
  change (tasks (call ?c ?x)) with (tasks x).
  change (tasks (call ?c ?x)) with (tasks x).
  change (tasks (call ?c ?x)) with (tasks x).
  rewrite add_punishment_tasks, !trace_call, add_punishment_trace.
  rewrite (proj1 (punished_counters now (Py.str target) "warn" why days
                    (from_first_name msg) (users w !! target))).
  cbn. repeat split; try lia.
  rewrite <- !(assoc_L (++)). cbn. unfold warns_of, get_user.
  now destruct (users w !! target).
Qed.

Lemma mute_command_valid now msg args target minutes why w :
  is_valid_admin_command cfg msg w = true ->
  (3 <= length args)%nat ->
  parse_punishment args = Some (target, minutes, why) ->
  mute_command cfg now msg args w
  = delete_command_message msg
      (log cfg (mute_log target minutes why)
         (reply msg (mute_reply target minutes)
            (snd (add_punishment now target (Py.str target) "mute" why minutes
                    (from_first_name msg)
                    (call (restrict_chat_member (FRONTEND_CHAT_ID cfg) target false
                             (Some (now + minutes * 60))) w))))).
Proof.
  intros Hvalid Hlen Hparse. unfold mute_command. rewrite Hvalid. cbn [negb].
  destruct (Nat.ltb_spec (length args) 3) as [Hlt | _]; [lia |].
  now rewrite Hparse.
Qed.

(** X9. [/mute user_id reason minutes] from a valid administrator,
    for an identifier the database holds and a term that ends at an
    instant a [datetime] holds, restricts the identity in the front-end chat until
    [now + minutes * 60], appends one mute entry with that term, leaves
    both counters alone and creates no task: as for the automatic mute,
    the end of the restriction is left to the platform. *)
Theorem admin_mute_restricts_until_term now msg args target minutes why w :
  is_valid_admin_command cfg msg w = true ->
  (3 <= length args)%nat ->
  parse_punishment args = Some (target, minutes, why) ->
  in_bigint target ->
  instant now ->
  instant (now + minutes * 60) ->
  let w' := mute_command cfg now msg args w in
  history_of target w'
    = history_of target w ++ [mkEntry now now "mute" why minutes (from_first_name msg)]
  /\ warns_of target w' = warns_of target w
  /\ bans_of target w' = bans_of target w
  /\ tasks w' = tasks w
  /\ trace w' = trace w ++
       [restrict_chat_member (FRONTEND_CHAT_ID cfg) target false (Some (now + minutes * 60));
        reply_text (chat_id msg) (message_id msg) (mute_reply target minutes);
        send_message (ADMIN_GROUP_ID cfg) (Some (LOGS_THREAD_ID cfg))
          (mute_log target minutes why);
        delete_message (chat_id msg) (message_id msg)].
Proof.
  intros Hvalid Hlen Hparse _ _ _. cbn zeta.
  rewrite (mute_command_valid now msg args target minutes why w Hvalid Hlen Hparse).
  unfold delete_command_message, log, reply.
  rewrite !history_of_call, !warns_of_call, !bans_of_call.
  rewrite history_of_add_punishment, warns_add_punishment, bans_add_punishment.
  rewrite !history_of_call, !warns_of_call, !bans_of_call.
  change (tasks (call ?c ?x)) with (tasks x).
  change (tasks (call ?c ?x)) with (tasks x).
  change (tasks (call ?c ?x)) with (tasks x).
  rewrite add_punishment_tasks, !trace_call, add_punishment_trace, trace_call.
  cbn. repeat split; try lia.
  now rewrite <- !(assoc_L (++)).
Qed.

(** X10. Arguments a command cannot use change nothing: for a valid
    administrator and arguments that are ASCII words, too few
    arguments or an identifier or term that [int] rejects make the handler answer with one message and delete
    the command, the ledger, the pending tasks and the allow-list
    staying as they were and no call being made on the platform but
    these two. *)
Theorem malformed_arguments_change_nothing h now msg args w :
  is_valid_admin_command cfg msg w = true ->
  Forall (fun a => Py.isword a = true) args ->
  malformed h args ->
  let w' := run_handler cfg h now msg args w in
  users w' = users w /\ tasks w' = tasks w
  /\ allowed_links w' = allowed_links w /\ ALLOWED_LINKS w' = ALLOWED_LINKS w
  /\ exists t, trace w' = trace w ++ [reply_text (chat_id msg) (message_id msg) t;
                                     delete_message (chat_id msg) (message_id msg)].
Proof.
  intros Hvalid _ Hmal. cbn zeta.
  destruct h; cbn [malformed run_handler] in *; try contradiction;
    unfold ban_command, warn_command, mute_command, unwarn_command, unmute_command,
      delete_command_message, reply;
    rewrite Hvalid; cbn [negb].
  1, 2, 4:
    destruct (Nat.ltb_spec (length args) 3) as [Hlt | Hge];
      [| destruct Hmal as [Hlt | Hnone]; [lia | rewrite Hnone]];
      cbn; repeat split; eexists; now rewrite <- (assoc_L (++)).
  all: destruct args as [| a0 rest]; [| rewrite Hmal];
    cbn; repeat split; eexists; now rewrite <- (assoc_L (++)).
Qed.

Lemma is_valid_admin_command_spec msg w :
  is_valid_admin_command cfg msg w = true
  <-> chat_id msg = ADMIN_GROUP_ID cfg
      /\ message_thread_id msg = Some (BOT_THREAD_ID cfg)
      /\ exists admins, administrators w = Some admins /\ from_id msg ∈ admins.
Proof.
  unfold is_valid_admin_command, is_admin_in_frontend.
  destruct (Z.eqb_spec (chat_id msg) (ADMIN_GROUP_ID cfg)) as [Hchat | Hchat]; cbn [negb orb].
  - case_bool_decide as Hthread; cbn [negb].
    + destruct (administrators w) as [admins |].
      * rewrite bool_decide_eq_true. split.
        -- intros Hin. repeat split; try assumption. now exists admins.
        -- intros (_ & _ & admins' & [= <-] & Hin). exact Hin.
      * split; [discriminate |]. intros (_ & _ & admins' & Hno & _). discriminate.
    + split; [discriminate |]. intros (_ & Ht & _). contradiction.
  - split; [discriminate |]. intros (Hc & _). contradiction.
Qed.

(** X11. The administrator check fails closed. A command is taken as
    valid exactly when it comes from the administrators' chat, in the
    command topic, and the platform reports its issuer among the
    administrators of the front-end chat; when the platform's answer is
    missing, or any of the three fails, each of the five punishment
    commands leaves the world as it is, without even an answer. *)
Theorem admin_check_fails_closed msg w :
  (is_valid_admin_command cfg msg w = true
   <-> chat_id msg = ADMIN_GROUP_ID cfg
       /\ message_thread_id msg = Some (BOT_THREAD_ID cfg)
       /\ exists admins, administrators w = Some admins /\ from_id msg ∈ admins)
  /\ (is_valid_admin_command cfg msg w = false ->
      forall h now args, h <> h_help -> h <> h_links ->
                         run_handler cfg h now msg args w = w).
Proof.
  split; [apply is_valid_admin_command_spec |].
  intros Hno h now args Hhelp Hlinks.
  destruct (punishment_commands_gated cfg now msg args w Hno) as (Hb & Hw & Hu & Hm & Hn).
  destruct h; cbn [run_handler]; try assumption; contradiction.
Qed.

Lemma is_valid_admin_command_administrators msg w w' :
  administrators w' = administrators w ->
  is_valid_admin_command cfg msg w' = is_valid_admin_command cfg msg w.
Proof.
  intros Ha. unfold is_valid_admin_command, is_admin_in_frontend. now rewrite Ha.
Qed.

(** X12. [/unwarn] undoes the latest [/warn]: after a warning issued by
    a valid administrator and then an unwarn of the same identity, the
    history and both counters of the identity are what they were
    before, provided its [warns] counter was not negative. *)
Theorem warn_then_unwarn_restores now msg args target days why msg' a0 rest w :
  is_valid_admin_command cfg msg w = true ->
  is_valid_admin_command cfg msg' w = true ->
  (3 <= length args)%nat ->
  parse_punishment args = Some (target, days, why) ->
  Py.int a0 = Some target ->
  0 <= warns_of target w ->
  let w' := unwarn_command cfg msg' (a0 :: rest) (warn_command cfg now msg args w) in
  history_of target w' = history_of target w
  /\ warns_of target w' = warns_of target w
  /\ bans_of target w' = bans_of target w.
Proof.
  intros Hvalid Hvalid' Hlen Hparse Hint Hpos. cbn zeta.
  rewrite (warn_command_valid now msg args target days why w Hvalid Hlen Hparse).
  set (w1 := delete_command_message _ _).
  assert (Hadmins : administrators w1 = administrators w).
  { unfold w1, delete_command_message, log, reply.
    change (administrators (call ?c ?x)) with (administrators x).
    change (administrators (call ?c ?x)) with (administrators x).
    change (administrators (call ?c ?x)) with (administrators x).
    apply add_punishment_rest. }
  assert (Hrec : users w1 !! target
                 = Some (punished now (Py.str target) "warn" why days
                           (from_first_name msg) (users w !! target))).
  { unfold w1, delete_command_message, log, reply.
    change (users (call ?c ?x)) with (users x).
    change (users (call ?c ?x)) with (users x).
    change (users (call ?c ?x)) with (users x).
    rewrite add_punishment_users. apply lookup_insert_eq. }
  destruct (punished_counters now (Py.str target) "warn" why days
              (from_first_name msg) (users w !! target)) as [Hw Hb].
  cbn zeta in Hw, Hb. cbn [String.eqb Ascii.eqb Bool.eqb] in Hw, Hb.
  assert (Hbase : warns (default (mkUser now (Py.str target) 0 0 []) (users w !! target))
                  = warns_of target w
                  /\ bans (default (mkUser now (Py.str target) 0 0 []) (users w !! target))
                     = bans_of target w
                  /\ history (default (mkUser now (Py.str target) 0 0 []) (users w !! target))
                     = history_of target w).
  { unfold warns_of, bans_of, history_of, get_user.
    now destruct (users w !! target). }
  destruct Hbase as (Hbw & Hbb & Hbh).
  assert (Hu : users (unwarn_command cfg msg' (a0 :: rest) w1)
               = <[target := unwarn_record
                               (punished now (Py.str target) "warn" why days
                                  (from_first_name msg) (users w !! target))]> (users w1)).
  { unfold unwarn_command.
    rewrite (is_valid_admin_command_administrators msg' w w1 Hadmins), Hvalid', Hint.
    cbn [negb]. unfold get_user. rewrite Hrec.
    destruct (Z.eqb_spec (warns (punished now (Py.str target) "warn" why days
                                   (from_first_name msg) (users w !! target))) 0)
      as [Hz | _]; [lia |].
    unfold delete_command_message, log, reply.
    change (users (call ?c ?x)) with (users x).
    change (users (call ?c ?x)) with (users x).
    change (users (call ?c ?x)) with (users x).
    now apply unwarn_record_stored. }
  unfold history_of, warns_of, bans_of, get_user.
  rewrite Hu, lookup_insert_eq.
  unfold unwarn_record. cbn [history warns bans].
  rewrite punished_history, pop_last_warn_snoc. cbn [type String.eqb Ascii.eqb Bool.eqb].
  rewrite Hw, Hb, Hbw, Hbb, Hbh.
  unfold history_of, warns_of, bans_of, get_user. repeat split; lia.
Qed.

End Commands.

(* ===================================================================== *)
(** ** The allow-list of links                                            *)
(* ===================================================================== *)

Section Links.

Variable cfg : Config.
Variable check_bracketed_netloc : string -> bool.

Implicit Types (w : World) (msg : Message) (q : CallbackQuery).

Lemma links_callback_confirm q url w :
  data q = "confirm|" +:+ url ->
  snd (links_callback cfg q w)
  = call (edit_text (chat_id (query_message q)) (message_id (query_message q)) link_deleted)
      (delete_link url (call answer_callback_query w)).
Proof. intros Hdata. unfold links_callback. rewrite Hdata. reflexivity. Qed.

(** X13. The confirmation button removes just the host it names: after
    [confirm|url], the table holds its former hosts other than [url],
    in their order, the global list is the table again, and the ledger
    and the pending tasks are as before. *)
Theorem confirm_removes_exactly_that_host q url w :
  data q = "confirm|" +:+ url ->
  let w' := snd (links_callback cfg q w) in
  allowed_links w' = filter (fun u => u <> url) (allowed_links w)
  /\ ALLOWED_LINKS w' = allowed_links w'
  /\ (url ∉ ALLOWED_LINKS w')
  /\ (forall d, d <> url -> d ∈ ALLOWED_LINKS w' <-> d ∈ allowed_links w)
  /\ users w' = users w
  /\ tasks w' = tasks w.
Proof.
  intros Hdata. cbn zeta. rewrite (links_callback_confirm q url w Hdata).
  cbn. split; [reflexivity |]. split; [reflexivity |]. split; [| split].
  - rewrite list_elem_of_filter. intros [Hne _]. now apply Hne.
  - intros d Hd. rewrite list_elem_of_filter. split; [now intros [_ Hin] | now split].
  - split; reflexivity.
Qed.

(** X14. No other button changes anything but the conversation: for
    callback data that does not start with [confirm|], the table, the
    global list, the ledger and the pending tasks are as before. *)
Theorem only_confirm_changes_the_allow_list q w :
  Py.startswith (data q) "confirm|" = false ->
  let w' := snd (links_callback cfg q w) in
  allowed_links w' = allowed_links w
  /\ ALLOWED_LINKS w' = ALLOWED_LINKS w
  /\ users w' = users w
  /\ tasks w' = tasks w.
Proof.
  intros Hno. cbn zeta. unfold links_callback, links_command, reply. rewrite Hno.
  repeat match goal with |- context [if ?b then _ else _] => destruct b end;
    cbn; repeat split.
Qed.

Lemma insert_link_table domain w :
  allowed_links (insert_link domain w)
  = (if bool_decide (domain ∈ allowed_links w) then allowed_links w
     else allowed_links w ++ [domain])
  /\ ALLOWED_LINKS (insert_link domain w) = allowed_links (insert_link domain w).
Proof. split; reflexivity. Qed.

Lemma insert_link_elem domain w : domain ∈ ALLOWED_LINKS (insert_link domain w).
Proof.
  destruct (insert_link_table domain w) as [Ht ->]. rewrite Ht.
  case_bool_decide as Hin; [exact Hin |].
  apply elem_of_app. right. apply list_elem_of_here.
Qed.

Lemma add_link_receive_world msg w :
  snd (add_link_receive check_bracketed_netloc msg w) = w
  \/ snd (add_link_receive check_bracketed_netloc msg w) = reply msg bad_url w
  \/ exists domain,
       domain_of check_bracketed_netloc (Py.strip (default "" (text msg))) = domain
       /\ domain <> ""
       /\ snd (add_link_receive check_bracketed_netloc msg w)
          = reply msg (link_added domain) (insert_link domain w).
Proof.
  unfold add_link_receive, domain_of.
  destruct (Urllib.hostname _ _) as [h |]; cbn [snd]; [| now left].
  destruct h as [h |]; cbn [from_option id].
  - destruct (Py.replace_www h) as [| c r] eqn:Hd; cbn [Py.nonempty snd].
    + right. now left.
    + right. right. exists (String c r). repeat split. discriminate.
  - right. now left.
Qed.

(** X15. The table of allowed links holds no host twice, and adding is
    idempotent: [add_link_receive] keeps the table free of duplicates,
    and the same message received once more leaves the table as the
    first time left it. *)
Theorem add_link_keeps_table_a_set msg w :
  let w' := snd (add_link_receive check_bracketed_netloc msg w) in
  (NoDup (allowed_links w) -> NoDup (allowed_links w'))
  /\ allowed_links (snd (add_link_receive check_bracketed_netloc msg w'))
     = allowed_links w'.
Proof.
  cbn zeta.
  destruct (add_link_receive_world msg w) as [Hw | [Hw | (d & Hd & Hne & Hw)]].
  - rewrite Hw. split; [auto |]. now rewrite Hw.
  - rewrite Hw. split; [auto |].
    destruct (add_link_receive_world msg (reply msg bad_url w))
      as [Hw' | [Hw' | (d' & Hd' & Hne' & Hw')]]; rewrite Hw'; try reflexivity.
    exfalso. unfold add_link_receive, domain_of in Hw, Hd'.
    destruct (Urllib.hostname _ _) as [[h |] |]; cbn in Hw, Hd'; try congruence.
    rewrite Hd' in Hw. destruct d'; [congruence |]. cbn in Hw.
    apply (f_equal trace) in Hw. cbn in Hw. apply app_inv_head in Hw. discriminate.
  - rewrite Hw. split.
    + intros Hnd. change (allowed_links (reply ?m ?t ?x)) with (allowed_links x).
      rewrite (proj1 (insert_link_table d w)).
      case_bool_decide as Hin; [exact Hnd |].
      apply NoDup_app. split; [exact Hnd |]. split; [| apply NoDup_singleton].
      intros x Hx Hx'. apply list_elem_of_singleton in Hx'. now subst.
    + destruct (add_link_receive_world msg (reply msg (link_added d) (insert_link d w)))
        as [Hw' | [Hw' | (d' & Hd' & Hne' & Hw')]]; rewrite Hw'; try reflexivity.
      rewrite Hd in Hd'. subst d'.
      change (allowed_links (reply ?m ?t ?x)) with (allowed_links x).
      rewrite (proj1 (insert_link_table d (reply msg (link_added d) (insert_link d w)))).
      rewrite bool_decide_eq_true_2; [reflexivity |].
      change (allowed_links (reply ?m ?t ?x)) with (allowed_links x).
      rewrite <- (proj2 (insert_link_table d w)). apply insert_link_elem.
Qed.

Lemma all_same_domain_clean now msg w d :
  d ∈ ALLOWED_LINKS w ->
  (forall u, u ∈ Re.findall_urls (default "" (text msg)) ->
             exists h, Urllib.hostname check_bracketed_netloc u = Py.Ok (Some h)
                       /\ Py.replace_www h = d) ->
  handle_message cfg check_bracketed_netloc now msg w = w.
Proof.
  intros Hin Hall. unfold handle_message, extract_domains.
  rewrite domains_of_total.
  2:{ intros u Hu. destruct (Hall u Hu) as (h & -> & _). discriminate. }
  destruct (forbidden_domain _ _) eqn:Hf; [| reflexivity].
  exfalso. apply forbidden_domain_spec in Hf as (d' & Hd' & _ & Hout).
  apply list_elem_of_fmap in Hd' as (u & -> & Hu).
  destruct (Hall u Hu) as (h & Hh & Hd). apply Hout.
  unfold domain_of. now rewrite Hh, Hd.
Qed.

(** X16. A link that has been added is accepted afterwards: when
    [add_link_receive] takes an ASCII text whose host name is [h],
    with something left of it once [www.] is removed, an ASCII message
    whose URLs all have the host name [h] passes [handle_message] with
    no effect. *)
Theorem added_link_is_accepted msg w h now msg' :
  Py.isascii (default "" (text msg)) = true ->
  Py.isascii (default "" (text msg')) = true ->
  Urllib.hostname check_bracketed_netloc (Py.strip (default "" (text msg)))
    = Py.Ok (Some h) ->
  Py.replace_www h <> "" ->
  (forall u, u ∈ Re.findall_urls (default "" (text msg')) ->
             Urllib.hostname check_bracketed_netloc u = Py.Ok (Some h)) ->
  let w' := snd (add_link_receive check_bracketed_netloc msg w) in
  Py.replace_www h ∈ ALLOWED_LINKS w'
  /\ handle_message cfg check_bracketed_netloc now msg' w' = w'.
Proof.
  intros _ _ Hh Hne Hall. cbn zeta.
  assert (Hin : Py.replace_www h
                ∈ ALLOWED_LINKS (snd (add_link_receive check_bracketed_netloc msg w))).
  { unfold add_link_receive. rewrite Hh. cbn [from_option id].
    destruct (Py.replace_www h) as [| c r] eqn:Hd; [contradiction |].
    cbn [Py.nonempty snd]. change (ALLOWED_LINKS (reply ?m ?t ?x)) with (ALLOWED_LINKS x).
    apply insert_link_elem. }
  split; [exact Hin |].
  apply (all_same_domain_clean now msg' _ (Py.replace_www h) Hin).
  intros u Hu. exists h. split; [now apply Hall | reflexivity].
Qed.

(** X17. A link that has been removed is reported afterwards: after
    [confirm|url] for a host [url] that is not empty, an ASCII message
    with a URL that resolves to [url], none of its URLs being rejected by
    [urlparse], is handled as a violation. *)
Theorem removed_link_is_reported q url w now msg' :
  data q = "confirm|" +:+ url ->
  url <> "" ->
  Py.isascii (default "" (text msg')) = true ->
  (forall u, u ∈ Re.findall_urls (default "" (text msg')) ->
             Urllib.hostname check_bracketed_netloc u <> Py.ValueError) ->
  (exists u, u ∈ Re.findall_urls (default "" (text msg'))
             /\ domain_of check_bracketed_netloc u = url) ->
  let w' := snd (links_callback cfg q w) in
  handle_message cfg check_bracketed_netloc now msg' w'
  = process_violation cfg now msg' "Эта ссылка запрещена." (default "" (text msg')) w'.
Proof.
  intros Hdata Hne _ Hok (u & Hu & Hd). cbn zeta.
  unfold handle_message, extract_domains. rewrite (domains_of_total _ _ Hok).
  replace (forbidden_domain _ _) with true; [reflexivity |].
  symmetry. apply forbidden_domain_spec. exists url.
  split; [rewrite <- Hd; now apply list_elem_of_fmap_2 |]. split; [exact Hne |].
  rewrite (links_callback_confirm q url w Hdata). cbn.
  rewrite list_elem_of_filter. intros [Hself _]. now apply Hself.
Qed.

End Links.

(* ===================================================================== *)
(** ** The event loop                                                     *)
(* ===================================================================== *)

Section Loop.

Variable cfg : Config.

Implicit Types (w : World) (t : Task).

Lemma filter_split_length (P : Task -> Prop) `{!forall t, Decision (P t)} (l : list Task) :
  (length (filter P l) + length (filter (fun t => ~ P t) l) = length l)%nat.
Proof.
  induction l as [| t l IH]; [reflexivity |].
  rewrite !filter_cons.
  destruct (decide (P t)) as [Hp | Hp].
  - rewrite (decide_False (P := ~ P t)) by tauto. cbn. lia.
  - rewrite (decide_True (P := ~ P t)) by exact Hp. cbn. lia.
Qed.

Lemma filter_due_pending now (l : list Task) :
  filter (due now) (filter (fun t => ~ due now t) l) = [].
Proof.
  induction l as [| t l IH]; [reflexivity |].
  rewrite filter_cons. destruct (decide (~ due now t)) as [Hn | _]; [| exact IH].
  rewrite filter_cons, decide_False by exact Hn. exact IH.
Qed.

Lemma filter_pending_pending now (l : list Task) :
  filter (fun t => ~ due now t) (filter (fun t => ~ due now t) l)
  = filter (fun t => ~ due now t) l.
Proof.
  induction l as [| t l IH]; [reflexivity |].
  rewrite filter_cons. destruct (decide (~ due now t)) as [Hn | _]; [| exact IH].
  rewrite filter_cons, decide_True by exact Hn. now rewrite IH.
Qed.

(** X20. A task runs once and is then gone. One turn of the event loop
    makes exactly one call for each task it takes off the pending list,
    leaves pending only tasks whose sleep is not over, does not touch
    the ledger, and a second turn at the same instant changes
    nothing. *)
Theorem due_tasks_run_once now w :
  (length (trace (run_due cfg now w)) + length (tasks (run_due cfg now w))
   = length (trace w) + length (tasks w))%nat
  /\ Forall (fun t => now < wake_at t) (tasks (run_due cfg now w))
  /\ users (run_due cfg now w) = users w
  /\ run_due cfg now (run_due cfg now w) = run_due cfg now w.
Proof.
  split; [| split; [| split]].
  - rewrite run_due_trace, run_due_tasks, length_app, length_map.
    pose proof (filter_split_length (due now) (tasks w)). lia.
  - rewrite run_due_tasks. apply Forall_forall. intros t Ht.
    apply list_elem_of_filter in Ht as [Hn _]. unfold due in Hn. lia.
  - apply run_due_users.
  - unfold run_due at 1. rewrite run_due_tasks, filter_due_pending, filter_pending_pending.
    cbn [foldl]. unfold set_tasks. f_equal.
Qed.

Lemma ban_command_valid now msg args target hours why w :
  is_valid_admin_command cfg msg w = true ->
  (3 <= length args)%nat ->
  parse_punishment args = Some (target, hours, why) ->
  ban_command cfg now msg args w
  = delete_command_message msg
      (create_task (schedule_unban now target hours)
         (log cfg (ban_log target hours why)
            (reply msg
               (ban_reply target hours
                  (bans (punished now (Py.str target) "ban" why hours
                           (from_first_name msg) (users w !! target))))
               (snd (add_punishment now target (Py.str target) "ban" why hours
                       (from_first_name msg)
                       (call (ban_chat_member (FRONTEND_CHAT_ID cfg) target) w)))))).
Proof.
  intros Hvalid Hlen Hparse. unfold ban_command. rewrite Hvalid. cbn [negb].
  destruct (Nat.ltb_spec (length args) 3) as [Hlt | _]; [lia |].
  rewrite Hparse. rewrite (surjective_pairing (add_punishment _ _ _ _ _ _ _ _)).
  now rewrite add_punishment_fst.
Qed.

(** X21. A ban with a term that is not positive is lifted at once:
    [/ban user_id reason hours] with [hours <= 0], for an identifier
    the database holds, bans the identity and
    leaves a task that is due at the very instant of the command, so
    that the next turn of the event loop makes the unban call and the
    task is pending no more. *)
Theorem ban_without_positive_term_is_lifted_at_once now msg args target hours why w :
  is_valid_admin_command cfg msg w = true ->
  (3 <= length args)%nat ->
  parse_punishment args = Some (target, hours, why) ->
  hours <= 0 ->
  in_bigint target ->
  let w' := ban_command cfg now msg args w in
  let unban := unban_chat_member (FRONTEND_CHAT_ID cfg) target true in
  tasks w' = tasks w ++ [mkTask now target hours]
  /\ (ban_chat_member (FRONTEND_CHAT_ID cfg) target ∈ trace w')
  /\ calls unban (trace (run_due cfg now w')) = S (calls unban (trace (run_due cfg now w)))
  /\ tasks (run_due cfg now w') = tasks (run_due cfg now w).
Proof.
  intros Hvalid Hlen Hparse Hneg _. cbn zeta.
  rewrite (ban_command_valid now msg args target hours why w Hvalid Hlen Hparse).
  unfold schedule_unban. rewrite Z.max_l by lia. rewrite Z.add_0_r.
  set (w1 := snd (add_punishment _ _ _ _ _ _ _ _)).
  set (w' := delete_command_message _ _).
  assert (Hts : tasks w' = tasks w ++ [mkTask now target hours]).
  { unfold w'. cbn. unfold w1. now rewrite add_punishment_tasks. }
  assert (Htr : trace w' = trace w ++
                  [ban_chat_member (FRONTEND_CHAT_ID cfg) target;
                   reply_text (chat_id msg) (message_id msg)
                     (ban_reply target hours
                        (bans (punished now (Py.str target) "ban" why hours
                                 (from_first_name msg) (users w !! target))));
                   send_message (ADMIN_GROUP_ID cfg) (Some (LOGS_THREAD_ID cfg))
                     (ban_log target hours why);
                   delete_message (chat_id msg) (message_id msg)]).
  { unfold w', delete_command_message, log, reply. rewrite trace_call.
    change (trace (create_task ?t ?x)) with (trace x).
    rewrite !trace_call. unfold w1. rewrite add_punishment_trace, trace_call.
    now rewrite <- !(assoc_L (++)). }
  split; [exact Hts |]. split.
  - rewrite Htr. apply elem_of_app. right. apply list_elem_of_here.
  - pose proof (run_due_new_task cfg now (mkTask now target hours) w w' Hts) as Hnew.
    cbn zeta in Hnew. cbn [task_user_id] in Hnew.
    rewrite decide_True in Hnew by (unfold due; cbn; lia).
    apply Hnew. rewrite Htr, calls_app. unfold calls at 2.
    rewrite !filter_cons, filter_nil.
    repeat (rewrite decide_False by discriminate). cbn. lia.
Qed.

End Loop.

(* ===================================================================== *)
(** ** File names and typed links                                         *)
(* ===================================================================== *)

Section Names.

Variable cfg : Config.
Variable check_bracketed_netloc : string -> bool.

Implicit Types (s a b stem e dots rest dir : string) (c : ascii).

Local Arguments Ascii.eqb : simpl never.

Lemma basename_plain s : Py.contains "/" s = false -> basename s = s.
Proof.
  intros Hs. unfold basename. pose proof (rpartition_spec "/" s) as Hspec.
  destruct (Py.rpartition "/" s) as [[a f] b]. destruct f.
  - destruct Hspec as [-> _]. rewrite contains_append in Hs. simpl in Hs.
    rewrite ?Ascii.eqb_refl, orb_true_r in Hs. discriminate.
  - now destruct Hspec as (_ & -> & _).
Qed.

Lemma basename_dir dir b : Py.contains "/" b = false -> basename (dir +:+ String "/" b) = b.
Proof.
  intros Hb. pose proof (after_last_found "/" dir b Hb) as Ha.
  unfold after_last in Ha. unfold basename.
  pose proof (rpartition_spec "/" (dir +:+ String "/" b)) as Hspec.
  destruct (Py.rpartition "/" (dir +:+ String "/" b)) as [[a f] b']. destruct f.
  - exact Ha.
  - destruct Hspec as (_ & _ & Hno). rewrite contains_append in Hno. simpl in Hno.
    rewrite ?Ascii.eqb_refl, orb_true_r in Hno. discriminate.
Qed.

Lemma dots_hold_no_slash dots :
  Py.forall_chars (Ascii.eqb ".") dots = true -> Py.contains "/" dots = false.
Proof.
  induction dots as [| c dots IH]; [reflexivity |]. simpl.
  intros H. apply andb_true_iff in H as [Hc Hd].
  apply Ascii.eqb_eq in Hc. subst c. now rewrite IH.
Qed.

Lemma extension_of_stem_and_ext stem e :
  Py.contains "." e = false ->
  Py.forall_chars (Ascii.eqb ".") stem = false ->
  Py.lower (after_last "." (Py.lstrip (Ascii.eqb ".") (stem +:+ String "." e)))
  = Py.lower e.
Proof.
  intros He Hstem.
  now rewrite (lstrip_dots_some stem _ Hstem), (after_last_found "." _ e He).
Qed.

(** X22. For a plain file name the extension is what stands after the
    last dot, in lower case, with or without directories before it:
    [stem.e] gives [lower e] when [e] is ASCII and has neither dot nor
    slash and [stem] has no slash and a character other than a dot. *)
Theorem extension_of_plain_name dir stem e :
  Py.isascii e = true ->
  Py.contains "/" stem = false ->
  Py.contains "/" e = false ->
  Py.contains "." e = false ->
  Py.forall_chars (Ascii.eqb ".") stem = false ->
  extension (stem +:+ String "." e) = Py.lower e
  /\ extension (dir +:+ String "/" (stem +:+ String "." e)) = Py.lower e.
Proof.
  intros _ Hstem He Hdot Hdots.
  assert (Hname : Py.contains "/" (stem +:+ String "." e) = false).
  { rewrite contains_append. simpl. now rewrite Hstem, He. }
  split; rewrite extension_spec.
  - rewrite (basename_plain _ Hname). now apply extension_of_stem_and_ext.
  - rewrite (basename_dir dir _ Hname). now apply extension_of_stem_and_ext.
Qed.

Lemma extension_of_dots_and_rest dots rest :
  Py.forall_chars (Ascii.eqb ".") dots = true ->
  Py.contains "." rest = false ->
  Py.lower (after_last "." (Py.lstrip (Ascii.eqb ".") (dots +:+ rest))) = "".
Proof.
  intros Hdots Hrest.
  now rewrite (lstrip_dots_all dots rest Hdots), (lstrip_dots_dotless rest Hrest),
    (after_last_absent "." rest Hrest).
Qed.

(** X23. A name without a dot, or with dots at its start only, has no
    extension: for a last component made of dots followed by a text
    without dot, as in [README] or [.bashrc], the extension is empty,
    and the attachment is reported whenever the empty string is not on
    the allow-list of extensions. *)
Theorem names_without_extension now msg dir dots rest w :
  Py.forall_chars (Ascii.eqb ".") dots = true ->
  Py.contains "." rest = false ->
  Py.contains "/" rest = false ->
  extension (dots +:+ rest) = ""
  /\ extension (dir +:+ String "/" (dots +:+ rest)) = ""
  /\ (document_file_name msg = Some (dots +:+ rest) ->
      "" ∉ ALLOWED_EXTS w ->
      handle_document cfg now msg w
      = process_violation cfg now msg "Этот тип файла запрещён." (dots +:+ rest) w).
Proof.
  intros Hdots Hrest Hslash.
  assert (Hname : Py.contains "/" (dots +:+ rest) = false).
  { rewrite contains_append. now rewrite (dots_hold_no_slash dots Hdots), Hslash. }
  assert (Hext : extension (dots +:+ rest) = "").
  { rewrite extension_spec, (basename_plain _ Hname).
    now apply extension_of_dots_and_rest. }
  split; [exact Hext |]. split.
  - rewrite extension_spec, (basename_dir dir _ Hname).
    now apply extension_of_dots_and_rest.
  - intros Hdoc Hout. unfold handle_document. rewrite Hdoc, Hext.
    now rewrite bool_decide_eq_true_2.
Qed.

Lemma contains_lstrip c (p : ascii -> bool) s :
  Py.contains c s = false -> Py.contains c (Py.lstrip p s) = false.
Proof.
  induction s as [| d s IH]; [reflexivity |]. intros Hs. simpl.
  destruct (p d); [| exact Hs].
  apply IH. simpl in Hs. now apply orb_false_iff in Hs.
Qed.

Lemma contains_rstrip c s :
  Py.contains c s = false -> Py.contains c (Py.rstrip s) = false.
Proof.
  induction s as [| d s IH]; [reflexivity |]. simpl. intros Hs.
  apply orb_false_iff in Hs as [Hd Hs]. specialize (IH Hs).
  destruct (Py.rstrip s) as [| x r].
  - destruct (Py.isspace d); simpl; [reflexivity | now rewrite Hd].
  - simpl. simpl in IH. now rewrite Hd, IH.
Qed.

Lemma contains_remove_char c x s :
  Py.contains c s = false -> Py.contains c (Py.remove_char x s) = false.
Proof.
  induction s as [| d s IH]; [reflexivity |]. simpl. intros Hs.
  apply orb_false_iff in Hs as [Hd Hs].
  destruct (Ascii.eqb d x); simpl; [now apply IH | now rewrite Hd, IH].
Qed.

Lemma contains_partition_rest c x s :
  Py.contains c s = false -> Py.contains c (snd (Py.partition x s)) = false.
Proof.
  induction s as [| d s IH]; [reflexivity |]. simpl. intros Hs.
  apply orb_false_iff in Hs as [Hd Hs].
  destruct (Ascii.eqb d x); [exact Hs |].
  specialize (IH Hs). destruct (Py.partition x s) as [[a f] b]. exact IH.
Qed.

Lemma contains_strip_scheme c s :
  Py.contains c s = false -> Py.contains c (Urllib.strip_scheme s) = false.
Proof.
  intros Hs. unfold Urllib.strip_scheme.
  pose proof (contains_partition_rest c ":" s Hs) as Hrest.
  destruct (Py.partition ":" s) as [[before found] rest]. simpl in Hrest.
  destruct before as [| c0 before]; [exact Hs |].
  destruct (found && Py.isalpha c0 && Py.forall_chars Urllib.scheme_char (String c0 before));
    assumption.
Qed.

Lemma hostname_without_slash s :
  Py.contains "/" s = false -> Urllib.hostname check_bracketed_netloc s = Py.Ok None.
Proof.
  intros Hs. unfold Urllib.hostname, Urllib.netloc.
  set (url := Urllib.strip_scheme _).
  assert (Hurl : Py.contains "/" url = false).
  { unfold url. apply contains_strip_scheme. do 3 apply contains_remove_char.
    now apply contains_lstrip. }
  destruct url as [| d url']; [reflexivity |].
  simpl in Hurl. apply orb_false_iff in Hurl as [Hd _].
  simpl. rewrite Ascii.eqb_sym, Hd. reflexivity.
Qed.

(** X24. A host typed without slashes is refused: when the text an
    administrator sends to be added holds no [/], so that no [//]
    introduces a host, [add_link_receive] answers that the URL is not
    valid and adds nothing, whatever the text otherwise is. *)
Theorem link_without_slashes_is_refused msg w :
  Py.contains "/" (default "" (text msg)) = false ->
  add_link_receive check_bracketed_netloc msg w = (END, reply msg bad_url w).
Proof.
  intros Hs. unfold add_link_receive.
  rewrite hostname_without_slash; [reflexivity |].
  unfold Py.strip. apply contains_rstrip. now apply contains_lstrip.
Qed.

End Names.

(* ===================================================================== *)
(** ** The allow-lists along a run                                        *)
(* ===================================================================== *)

Section Lists.

Variable cfg : Config.
Variable check_bracketed_netloc : string -> bool.

Implicit Types (w : World) (msg : Message) (args : list string).

(** The table of links, the global list of links and the global list of
    extensions. *)
Lemma add_punishment_lists now target name p_type why duration by_whom w :
  let w' := snd (add_punishment now target name p_type why duration by_whom w) in
  allowed_links w' = allowed_links w
  /\ ALLOWED_LINKS w' = ALLOWED_LINKS w
  /\ ALLOWED_EXTS w' = ALLOWED_EXTS w.
Proof.
  destruct (add_punishment_rest now target name p_type why duration by_whom w)
    as (_ & _ & Ht & Hl & He & _).
  cbn zeta in *. auto.
Qed.

Lemma update_user_record_lists target record w :
  let w' := update_user_record target record w in
  allowed_links w' = allowed_links w
  /\ ALLOWED_LINKS w' = ALLOWED_LINKS w
  /\ ALLOWED_EXTS w' = ALLOWED_EXTS w.
Proof.
  cbn zeta. unfold update_user_record. destruct (users w !! target); cbn; auto.
Qed.

Lemma process_violation_lists now msg why detail w :
  let w' := process_violation cfg now msg why detail w in
  allowed_links w' = allowed_links w
  /\ ALLOWED_LINKS w' = ALLOWED_LINKS w
  /\ ALLOWED_EXTS w' = ALLOWED_EXTS w.
Proof.
  cbn zeta. unfold process_violation.
  match goal with |- context [if ?b then _ else _] => destruct b end.
  - exact (add_punishment_lists now (from_id msg) (alias_of msg) "warn" why 0 "bot"
             (call _ (call _ (call _ w)))).
  - exact (add_punishment_lists now (from_id msg) (alias_of msg) "mute" why 60 "bot"
             (call _ (call _ (call _ w)))).
Qed.

Lemma run_handler_lists h now msg args w :
  let w' := run_handler cfg h now msg args w in
  allowed_links w' = allowed_links w
  /\ ALLOWED_LINKS w' = ALLOWED_LINKS w
  /\ ALLOWED_EXTS w' = ALLOWED_EXTS w.
Proof.
  cbn zeta.
  destruct h; cbn [run_handler];
    unfold ban_command, warn_command, unwarn_command, mute_command, unmute_command,
      help_command, links_command, delete_command_message, reply, log;
    repeat match goal with
      | |- context [if ?b then _ else _] => destruct b
      | |- context [match parse_punishment ?a with _ => _ end] =>
          destruct (parse_punishment a) as [[[? ?] ?] |]
      | |- context [match ?a with [] => _ | _ :: _ => _ end] => destruct a
      | |- context [match Py.int ?a with _ => _ end] => destruct (Py.int a)
      | |- context [match get_user ?a ?b with _ => _ end] => destruct (get_user a b)
      | |- context [let '(_, _) := ?p in _] => rewrite (surjective_pairing p)
      end;
    try (cbn; auto; fail).
  - exact (add_punishment_lists _ _ _ _ _ _ _ (call _ w)).
  - exact (add_punishment_lists _ _ _ _ _ _ _ w).
  - exact (update_user_record_lists _ _ w).
  - exact (add_punishment_lists _ _ _ _ _ _ _ (call _ w)).
Qed.

Lemma run_due_lists now w :
  let w' := run_due cfg now w in
  allowed_links w' = allowed_links w
  /\ ALLOWED_LINKS w' = ALLOWED_LINKS w
  /\ ALLOWED_EXTS w' = ALLOWED_EXTS w.
Proof.
  cbn zeta. unfold run_due. cbn.
  generalize (filter (due now) (tasks w)). intros ts. revert w.
  induction ts as [| t ts IH]; intros w; [auto |].
  cbn. destruct (IH (resume cfg t w)) as (H1 & H2 & H3). auto.
Qed.

Lemma step_lists w e :
  let w' := step cfg check_bracketed_netloc w e in
  ALLOWED_EXTS w' = ALLOWED_EXTS w
  /\ (ALLOWED_LINKS w = allowed_links w -> ALLOWED_LINKS w' = allowed_links w').
Proof.
  cbn zeta.
  destruct e as [now msg | now msg | now cmd msg args | q | msg | now | admins];
    cbn [step].
  - unfold handle_message.
    destruct (extract_domains _ _) as [ds |]; [| auto].
    destruct (forbidden_domain _ ds); [| auto].
    destruct (process_violation_lists now msg "Эта ссылка запрещена."
                (default "" (text msg)) w) as (H1 & H2 & H3).
    split; [exact H3 | congruence].
  - unfold handle_document.
    destruct (document_file_name msg) as [fn |]; [| auto].
    case_bool_decide; [| auto].
    destruct (process_violation_lists now msg "Этот тип файла запрещён." fn w)
      as (H1 & H2 & H3).
    split; [exact H3 | congruence].
  - unfold run_command. destruct (handler_of cmd) as [h |]; [| auto].
    destruct (run_handler_lists h now msg args w) as (H1 & H2 & H3).
    split; [exact H3 | congruence].
  - unfold links_callback, links_command, delete_link, reply.
    repeat (match goal with |- context [if ?b then _ else _] => destruct b end;
            cbn [snd]; try (cbn; auto; fail)).
  - unfold add_link_receive, insert_link, reply.
    destruct (Urllib.hostname _ _) as [h |]; cbn [snd]; [| auto].
    destruct (Py.nonempty _); cbn [snd]; cbn; auto.
  - destruct (run_due_lists now w) as (H1 & H2 & H3).
    split; [exact H3 | congruence].
  - cbn. auto.
Qed.

(** X26. The global list of allowed links mirrors the table: when the
    two agree, as they do once the list is loaded at start-up, they
    agree after every sequence of updates, each change of the table
    being followed by a reload. *)
Theorem global_links_mirror_the_table events : forall w,
  ALLOWED_LINKS w = allowed_links w ->
  ALLOWED_LINKS (run cfg check_bracketed_netloc events w)
  = allowed_links (run cfg check_bracketed_netloc events w).
Proof.
  induction events as [| e events IH]; intros w Hw; [exact Hw |].
  cbn. apply IH. now apply step_lists.
Qed.

(** X27. The allow-list of extensions is fixed once loaded: no update
    the bot handles, command, button, message or timer, ever changes
    it. *)
Theorem extensions_never_change events : forall w,
  ALLOWED_EXTS (run cfg check_bracketed_netloc events w) = ALLOWED_EXTS w.
Proof.
  induction events as [| e events IH]; intros w; [reflexivity |].
  change (run cfg check_bracketed_netloc (e :: events) w)
    with (run cfg check_bracketed_netloc events (step cfg check_bracketed_netloc w e)).
  rewrite IH. now apply step_lists.
Qed.

Lemma middle_of_args (a0 an : string) mid :
  take (length (a0 :: mid ++ [an]) - 2) (drop 1 (a0 :: mid ++ [an])) = mid.
Proof.
  cbn [drop]. rewrite drop_0. cbn [length]. rewrite length_app. cbn [length].
  replace (S (length mid + 1) - 2)%nat with (length mid) by lia.
  now rewrite take_app_length.
Qed.

(** X25. The reason of a punishment is what stands between the
    identifier and the term: for arguments [user_id w1 ... wn term]
    whose first and last parse as integers, the three punishment
    commands take the words [w1 ... wn], joined by single spaces, as
    the reason. *)
Theorem reason_is_the_words_between a0 an mid target term :
  Py.int a0 = Some target ->
  Py.int an = Some term ->
  parse_punishment (a0 :: mid ++ [an]) = Some (target, term, Py.join " " mid).
Proof.
  intros H0 Hn. unfold parse_punishment.
  rewrite middle_of_args. cbn [head].
  change (a0 :: mid ++ [an]) with ((a0 :: mid) ++ [an]). rewrite last_snoc.
  now rewrite H0, Hn.
Qed.

End Lists.

(* ===================================================================== *)
(** ** The properties at work                                             *)
(* ===================================================================== *)

Import Scenario.

Lemma ledger_invariant_witness :
  ledger_ok start
  /\ ledger_ok (run cfg any_netloc
                  [on_text 1000 (post 10 (Some "see http://evil.example/x") None);
                   on_document 2000 (post 11 None (Some "payload.exe"));
                   on_command 3000 "unwarn" (order 12) ["42"]] start).
Proof.
  split; [now apply ledger_ok_empty |].
  apply (ledger_invariant cfg any_netloc start). now apply ledger_ok_empty.
Defined.

(** C3, as the specification has it, fails: the second violation of
    user 42 registers no expiry for the end of the mute. *)
Lemma automatic_mute_registers_no_expiry :
  warns_of 42 warned = 1
  /\ ~ registers_expiry 42 (2000 + 60 * 60) warned
         (process_violation cfg 2000 (post 11 None (Some "payload.exe"))
            "Этот тип файла запрещён." "payload.exe" warned).
Proof.
  split; [reflexivity |].
  intros (t & Hin & _). vm_compute in Hin. inversion Hin.
Qed.

Lemma automatic_mute_outcome_witness :
  let msg := post 11 None (Some "payload.exe") in
  let w' := process_violation cfg 2000 msg "Этот тип файла запрещён." "payload.exe" warned in
  trace w' = trace warned ++
      [delete_message (chat_id msg) (message_id msg);
       send_message (ADMIN_GROUP_ID cfg) (Some (LOGS_THREAD_ID cfg))
         (violation_log (from_id msg) (alias_of msg) 2000 "payload.exe");
       restrict_chat_member (chat_id msg) (from_id msg) false (Some (2000 + 60 * 60));
       send_message (chat_id msg) None (mute_notice (alias_of msg))]
    /\ tasks w' = tasks warned.
Proof.
  apply (automatic_mute_outcome cfg 2000 (post 11 None (Some "payload.exe"))).
  vm_compute. discriminate.
Defined.

Lemma muted_ledger_ok : ledger_ok muted.
Proof.
  apply (run_ok cfg any_netloc
           [on_text 1000 (post 10 (Some "see http://evil.example/x") None);
            on_document 2000 (post 11 None (Some "payload.exe"))] start).
  now apply ledger_ok_empty.
Qed.

Lemma unwarn_removes_last_warn_witness :
  warns_of 42 muted = 1
  /\ warns_of 43 muted = 0
  /\ (exists record h1 e h2,
        users muted !! 42 = Some record
        /\ history record = h1 ++ e :: h2
        /\ is_warn e
        /\ Forall (fun e' => ~ is_warn e') h2
        /\ users (unwarn_command cfg (order 13) ["42"] muted)
           = <[42 := mkUser (join_date record) (alias record)
                            (warns record - 1) (bans record) (h1 ++ h2)]> (users muted))
  /\ users (unwarn_command cfg (order 14) ["43"] muted) = users muted.
Proof.
  split; [reflexivity |]. split; [reflexivity |]. split.
  - apply (unwarn_removes_last_warn cfg (order 13) "42" [] 42 muted
             eq_refl eq_refl muted_ledger_ok).
    vm_compute. discriminate.
  - apply (unwarn_removes_last_warn cfg (order 14) "43" [] 43 muted
             eq_refl eq_refl muted_ledger_ok).
    reflexivity.
Defined.

Lemma ban_lifecycle_witness :
  history_of 42 banned
  = history_of 42 muted ++ [mkEntry 5000 5000 "ban" "spam" 24 "Ann"]
  /\ bans_of 42 banned = bans_of 42 muted + 1
  /\ tasks banned = tasks muted ++ [mkTask (5000 + 24 * 3600) 42 24]
  /\ (forall t, t < 5000 + 24 * 3600 ->
        calls (unban_chat_member (-1001) 42 true) (trace (run_due cfg t banned))
        = calls (unban_chat_member (-1001) 42 true) (trace (run_due cfg t muted))
        /\ tasks (run_due cfg t banned)
           = tasks (run_due cfg t muted) ++ [mkTask (5000 + 24 * 3600) 42 24])
  /\ (forall t, 5000 + 24 * 3600 <= t ->
        calls (unban_chat_member (-1001) 42 true) (trace (run_due cfg t banned))
        = S (calls (unban_chat_member (-1001) 42 true) (trace (run_due cfg t muted)))
        /\ tasks (run_due cfg t banned) = tasks (run_due cfg t muted)).
Proof.
  apply (ban_lifecycle cfg 5000 (order 12) ["42"; "spam"; "24"] 42 24 "spam" muted).
  - reflexivity.
  - cbn. lia.
  - reflexivity.
  - lia.
  - unfold in_bigint. lia.
  - unfold exact_delay. lia.
Defined.

(** C8, as the specification has it, fails: with a mute entry in the
    history of user 42 and an automatic unban pending, [/unmute 42]
    removes no entry and cancels no task, and [/unban 42] does nothing
    at all. *)
Lemma unmute_touches_no_ledger_no_task :
  is_valid_admin_command cfg (order 13) banned = true
  /\ (exists e, e ∈ history_of 42 banned /\ type e = "mute")
  /\ tasks banned = [mkTask 91400 42 24]
  /\ users (unmute_command cfg (order 13) ["42"] banned) = users banned
  /\ tasks (unmute_command cfg (order 13) ["42"] banned) = tasks banned
  /\ run_command cfg 6000 "unban" (order 14) ["42"] banned = banned.
Proof.
  split; [reflexivity |]. split.
  - exists (mkEntry 2000 2000 "mute" "Этот тип файла запрещён." 60 "bot").
    split; [| reflexivity].
    change (history_of 42 banned) with
      [mkEntry 1000 1000 "warn" "Эта ссылка запрещена." 0 "bot";
       mkEntry 2000 2000 "mute" "Этот тип файла запрещён." 60 "bot";
       mkEntry 5000 5000 "ban" "spam" 24 "Ann"].
    apply list_elem_of_In. cbn. tauto.
  - repeat split.
Qed.

Lemma reversal_commands_witness :
  users (unmute_command cfg (order 13) ["42"] banned) = users banned
  /\ tasks (unwarn_command cfg (order 13) ["42"] banned) = tasks banned
  /\ run_command cfg 6000 "unban" (order 13) ["42"] banned = banned.
Proof.
  destruct (reversal_commands cfg 6000 (order 13) "42" [] 42 banned eq_refl eq_refl)
    as ((Hu & _) & (Ht & _) & _ & Hr & _).
  repeat split; assumption.
Defined.

(** C7 at a failing input: user 666 is in the administrators' chat
    without being an administrator of the front-end chat, and presses
    the confirmation button under the keyboard of [/links]; nobody is
    checked and the host leaves the allow-list. *)
Lemma links_callback_checks_nobody :
  let q := mkCallbackQuery "confirm|good.example" 666 keyboard in
  is_admin_in_frontend 666 start = false
  /\ ALLOWED_LINKS start = ["good.example"]
  /\ ALLOWED_LINKS (snd (links_callback cfg q start)) = []
  /\ allowed_links (snd (links_callback cfg q start)) = [].
Proof. repeat split. Qed.



Lemma unschemed_or_hostless_is_clean_witness :
  ("evil.example" ∉ ALLOWED_LINKS start)
  /\ handle_message cfg any_netloc 1000 (post 10 (Some "buy at evil.example now") None) start
     = start
  /\ Re.findall_urls "see http:///evil.example" = ["http:///evil.example"]
  /\ handle_message cfg any_netloc 1000 (post 10 (Some "see http:///evil.example") None) start
     = start.
Proof.
  split; [apply (bool_decide_unpack _); vm_compute; exact I |].
  split; [| split; [reflexivity |]].
  - apply (unschemed_or_hostless_is_clean cfg any_netloc). left. reflexivity.
  - apply (unschemed_or_hostless_is_clean cfg any_netloc). right.
    split; [reflexivity |]. intros u Hu. vm_compute in Hu. apply list_elem_of_singleton in Hu. now subst u.
Defined.

(** C9, as the specification has it, fails: the text after the last dot
    of [.pdf] is [pdf], which is allowed, yet the attachment is reported,
    because a name that starts with its only dot has no extension. *)
Lemma leading_dot_name_has_no_extension :
  claimed_extension ".pdf" = "pdf"
  /\ ("pdf" ∈ ALLOWED_EXTS start)
  /\ extension ".pdf" = ""
  /\ handle_document cfg 1000 (post 10 None (Some ".pdf")) start
     = process_violation cfg 1000 (post 10 None (Some ".pdf"))
         "Этот тип файла запрещён." ".pdf" start
  /\ handle_document cfg 1000 (post 10 None (Some ".pdf")) start <> start.
Proof.
  split; [reflexivity |]. split; [apply list_elem_of_here |].
  split; [reflexivity |]. split; [reflexivity |].
  intros H. apply (f_equal trace) in H. vm_compute in H. discriminate.
Qed.

Lemma attachment_verdict_witness :
  handle_document cfg 1000 (post 10 None (Some "docs/Report.v2.PDF")) start = start
  /\ handle_document cfg 1000 (post 10 None (Some "payload.exe")) start
     = process_violation cfg 1000 (post 10 None (Some "payload.exe"))
         "Этот тип файла запрещён." "payload.exe" start.
Proof.
  split.
  - apply (attachment_verdict cfg 1000 (post 10 None (Some "docs/Report.v2.PDF"))
             "docs/Report.v2.PDF" start eq_refl eq_refl).
    vm_compute. apply list_elem_of_here.
  - apply (attachment_verdict cfg 1000 (post 10 None (Some "payload.exe"))
             "payload.exe" start eq_refl eq_refl).
    apply (bool_decide_unpack _). vm_compute. exact I.
Defined.

(* ===================================================================== *)
(** ** The further properties at work                                     *)
(* ===================================================================== *)

Import Cases.

Lemma bans_counter_counts_ban_entries_witness :
  bans_ok start
  /\ bans_ok (run cfg any_netloc
                [on_text 1000 (post 10 (Some "see http://evil.example/x") None);
                 on_command 5000 "ban" (order 12) ["42"; "spam"; "24"]] start).
Proof.
  assert (Hstart : bans_ok start).
  { intros uid user Hu. vm_compute in Hu. discriminate. }
  split; [exact Hstart |].
  now apply (bans_counter_counts_ban_entries cfg any_netloc start).
Defined.

Lemma records_persist_witness :
  exists user',
    users (run cfg any_netloc
             [on_command 3000 "unwarn" (order 12) ["42"];
              on_document 4000 (post 13 None (Some "payload.exe"))] warned) !! 42
    = Some user'
    /\ join_date user' = 1000.
Proof.
  exact (records_persist cfg any_netloc warned
           [on_command 3000 "unwarn" (order 12) ["42"];
            on_document 4000 (post 13 None (Some "payload.exe"))] 42
           (mkUser 1000 "@bob" 1 0
              [mkEntry 1000 1000 "warn" "Эта ссылка запрещена." 0 "bot"])
           eq_refl).
Defined.

Lemma add_punishment_returns_stored_record_witness :
  get_user 42 (snd (add_punishment 2000 7 "7" "ban" "spam" 24 "Ann" warned))
  = get_user 42 warned.
Proof.
  apply (add_punishment_returns_stored_record 2000 7 "7" "ban" "spam" 24 "Ann" warned).
  - unfold in_bigint. lia.
  - lia.
Defined.

Lemma escalation_touches_offender_only_witness :
  get_user 7 (process_violation cfg 2000 (post 11 None (Some "payload.exe"))
                "Этот тип файла запрещён." "payload.exe" warned)
  = get_user 7 warned.
Proof.
  apply (escalation_touches_offender_only cfg 2000 (post 11 None (Some "payload.exe"))
           "Этот тип файла запрещён." "payload.exe" warned).
  cbn. lia.
Defined.

Lemma repeated_violations_only_mute_witness :
  let vs := [(2000, post 11 None (Some "a.exe"), "file", "a.exe");
             (3000, post 12 (Some "http://evil.example") None, "link", "");
             (4000, post 13 None (Some "b.exe"), "file", "b.exe")] in
  history_of 42 (process_violations cfg vs warned)
  = history_of 42 warned ++ (mute_entry <$> vs)
  /\ warns_of 42 (process_violations cfg vs warned) = warns_of 42 warned
  /\ bans_of 42 (process_violations cfg vs warned) = bans_of 42 warned.
Proof.
  apply (repeated_violations_only_mute cfg).
  - vm_compute. discriminate.
  - repeat constructor.
Defined.

Lemma admin_warn_always_appends_witness :
  warns_of 42 (warn_command cfg 6000 (order 15) ["42"; "rude"; "words"; "7"] muted)
  = warns_of 42 muted + 1.
Proof.
  apply (admin_warn_always_appends cfg 6000 (order 15) ["42"; "rude"; "words"; "7"]
           42 7 "rude words" muted);
    [reflexivity | cbn; lia | reflexivity | unfold in_bigint; lia].
Defined.

Lemma admin_mute_restricts_until_term_witness :
  tasks (mute_command cfg 6000 (order 15) ["42"; "flood"; "30"] muted) = tasks muted.
Proof.
  apply (admin_mute_restricts_until_term cfg 6000 (order 15) ["42"; "flood"; "30"]
           42 30 "flood" muted);
    [reflexivity | cbn; lia | reflexivity | unfold in_bigint; lia
     | unfold instant; lia | unfold instant; lia].
Defined.

Lemma malformed_arguments_change_nothing_witness :
  users (run_handler cfg h_ban 6000 (order 15) ["42"; "spam"; "soon"] muted) = users muted
  /\ users (run_handler cfg h_unwarn 6000 (order 15) ["bob"] muted) = users muted.
Proof.
  split.
  - apply (malformed_arguments_change_nothing cfg h_ban 6000 (order 15)
             ["42"; "spam"; "soon"] muted);
      [reflexivity | repeat constructor | right; reflexivity].
  - apply (malformed_arguments_change_nothing cfg h_unwarn 6000 (order 15)
             ["bob"] muted); [reflexivity | repeat constructor | reflexivity].
Defined.

Lemma admin_check_fails_closed_witness :
  is_valid_admin_command cfg (order 15) offline = false
  /\ run_handler cfg h_ban 6000 (order 15) ["42"; "spam"; "24"] offline = offline
  /\ run_handler cfg h_unmute 6000 (intruder 16) ["42"] muted = muted.
Proof.
  split; [reflexivity |]. split.
  - apply (admin_check_fails_closed cfg (order 15) offline); [reflexivity | | ];
      discriminate.
  - apply (admin_check_fails_closed cfg (intruder 16) muted); [reflexivity | | ];
      discriminate.
Defined.

Lemma warn_then_unwarn_restores_witness :
  let w' := unwarn_command cfg (order 16) ["42"]
              (warn_command cfg 6000 (order 15) ["42"; "rude"; "7"] muted) in
  history_of 42 w' = history_of 42 muted
  /\ warns_of 42 w' = warns_of 42 muted
  /\ bans_of 42 w' = bans_of 42 muted.
Proof.
  apply (warn_then_unwarn_restores cfg 6000 (order 15) ["42"; "rude"; "7"] 42 7 "rude"
           (order 16) "42" [] muted);
    [reflexivity | reflexivity | cbn; lia | reflexivity | reflexivity | vm_compute; discriminate].
Defined.

Lemma confirm_removes_exactly_that_host_witness :
  allowed_links (snd (links_callback cfg (mkCallbackQuery "confirm|good.example" 1 keyboard)
                        start))
  = filter (fun u => u <> "good.example") (allowed_links start).
Proof.
  apply (confirm_removes_exactly_that_host cfg
           (mkCallbackQuery "confirm|good.example" 1 keyboard) "good.example" start).
  reflexivity.
Defined.

Lemma only_confirm_changes_the_allow_list_witness :
  allowed_links (snd (links_callback cfg (mkCallbackQuery "del|good.example" 1 keyboard)
                        start))
  = allowed_links start.
Proof.
  apply (only_confirm_changes_the_allow_list cfg
           (mkCallbackQuery "del|good.example" 1 keyboard) start).
  reflexivity.
Defined.

Lemma add_link_keeps_table_a_set_witness :
  NoDup (allowed_links
           (snd (add_link_receive any_netloc (typed 17 " https://www.Example.org/docs ")
                   start))).
Proof.
  apply (add_link_keeps_table_a_set any_netloc (typed 17 " https://www.Example.org/docs ")
           start).
  apply NoDup_singleton.
Defined.

Lemma added_link_is_accepted_witness :
  let w' := snd (add_link_receive any_netloc (typed 17 " https://www.Example.org/docs ")
                   start) in
  ("example.org" ∈ ALLOWED_LINKS w')
  /\ handle_message cfg any_netloc 7000
       (post 18 (Some "read https://www.example.org/x and http://WWW.EXAMPLE.ORG:80") None) w'
     = w'.
Proof.
  apply (added_link_is_accepted cfg any_netloc (typed 17 " https://www.Example.org/docs ")
           start "www.example.org" 7000
           (post 18 (Some "read https://www.example.org/x and http://WWW.EXAMPLE.ORG:80") None)).
  - reflexivity.
  - reflexivity.
  - reflexivity.
  - vm_compute. discriminate.
  - intros u Hu. vm_compute in Hu.
    apply elem_of_cons in Hu as [-> | Hu]; [reflexivity |].
    apply list_elem_of_singleton in Hu. now subst u.
Defined.

Lemma removed_link_is_reported_witness :
  let w' := snd (links_callback cfg (mkCallbackQuery "confirm|good.example" 1 keyboard)
                   start) in
  handle_message cfg any_netloc 7000 (post 18 (Some "http://good.example/x") None) w'
  = process_violation cfg 7000 (post 18 (Some "http://good.example/x") None)
      "Эта ссылка запрещена." "http://good.example/x" w'.
Proof.
  apply (removed_link_is_reported cfg any_netloc
           (mkCallbackQuery "confirm|good.example" 1 keyboard) "good.example" start 7000
           (post 18 (Some "http://good.example/x") None)).
  - reflexivity.
  - discriminate.
  - reflexivity.
  - intros u Hu. vm_compute in Hu. apply list_elem_of_singleton in Hu. subst u.
    vm_compute. discriminate.
  - exists "http://good.example/x". split; [apply list_elem_of_here | reflexivity].
Defined.

Lemma found_urls_have_a_scheme_and_no_space_witness :
  let text := "see http://a.example, then https://b.example/y?z now" in
  ["a.example,"; "b.example"] = domain_of any_netloc <$> Re.findall_urls text
  /\ forall u, u ∈ Re.findall_urls text ->
       exists pre post,
         text = pre +:+ u +:+ post
         /\ (post = "" \/ exists sp r, post = String sp r /\ Py.isspace sp = true)
         /\ (exists c r, Py.isspace c = false
                         /\ (u = "http://" +:+ String c r \/ u = "https://" +:+ String c r))
         /\ Py.forall_chars (fun c => negb (Py.isspace c)) u = true
         /\ Py.isascii u = true.
Proof.
  apply (found_urls_have_a_scheme_and_no_space any_netloc
           "see http://a.example, then https://b.example/y?z now"
           ["a.example,"; "b.example"]); reflexivity.
Defined.

Lemma urls_of_joined_texts_witness :
  Re.findall_urls ("see http://a.example" +:+ String "010" "https://b.example now")
  = Re.findall_urls "see http://a.example" ++ Re.findall_urls "https://b.example now"
  /\ extract_domains any_netloc
       ("see http://a.example" +:+ String "010" "https://b.example now")
     = Py.Ok (["a.example"] ++ ["b.example"]).
Proof.
  apply (urls_of_joined_texts any_netloc "see http://a.example" "010"
           "https://b.example now"); reflexivity.
Defined.

Lemma ban_without_positive_term_is_lifted_at_once_witness :
  let w' := ban_command cfg 5000 (order 12) ["42"; "spam"; "-5"] muted in
  tasks w' = tasks muted ++ [mkTask 5000 42 (-5)]
  /\ (ban_chat_member (-1001) 42 ∈ trace w')
  /\ calls (unban_chat_member (-1001) 42 true) (trace (run_due cfg 5000 w'))
     = S (calls (unban_chat_member (-1001) 42 true) (trace (run_due cfg 5000 muted)))
  /\ tasks (run_due cfg 5000 w') = tasks (run_due cfg 5000 muted).
Proof.
  apply (ban_without_positive_term_is_lifted_at_once cfg 5000 (order 12)
           ["42"; "spam"; "-5"] 42 (-5) "spam" muted);
    [reflexivity | cbn; lia | reflexivity | lia | unfold in_bigint; lia].
Defined.

Lemma extension_of_plain_name_witness :
  extension "Report.v2.PDF" = "pdf"
  /\ extension ("home/.cache" +:+ String "/" "Report.v2.PDF") = "pdf".
Proof.
  apply (extension_of_plain_name "home/.cache" "Report.v2" "PDF"); reflexivity.
Defined.

Lemma names_without_extension_witness :
  extension ".bashrc" = ""
  /\ extension ("home" +:+ String "/" ".bashrc") = ""
  /\ (document_file_name (post 19 None (Some ".bashrc")) = Some ".bashrc" ->
      "" ∉ ALLOWED_EXTS start ->
      handle_document cfg 8000 (post 19 None (Some ".bashrc")) start
      = process_violation cfg 8000 (post 19 None (Some ".bashrc"))
          "Этот тип файла запрещён." ".bashrc" start).
Proof.
  apply (names_without_extension cfg 8000 (post 19 None (Some ".bashrc")) "home" "."
           "bashrc" start); reflexivity.
Defined.

Lemma link_without_slashes_is_refused_witness :
  add_link_receive any_netloc (typed 17 "example.org") start
  = (END, reply (typed 17 "example.org") bad_url start).
Proof.
  apply (link_without_slashes_is_refused any_netloc (typed 17 "example.org") start).
  reflexivity.
Defined.


Lemma global_links_mirror_the_table_witness :
  let events := [on_link_text (typed 17 "https://www.example.org/docs");
                 on_callback (mkCallbackQuery "confirm|good.example" 1 keyboard);
                 on_text 7000 (post 18 (Some "http://good.example/x") None)] in
  ALLOWED_LINKS (run cfg any_netloc events start)
  = allowed_links (run cfg any_netloc events start).
Proof.
  apply (global_links_mirror_the_table cfg any_netloc). reflexivity.
Defined.

Lemma reason_is_the_words_between_witness :
  parse_punishment ("42" :: ["rude"; "words"] ++ ["7"]) = Some (42, 7, "rude words").
Proof.
  apply (reason_is_the_words_between "42" "7" ["rude"; "words"] 42 7); reflexivity.
Defined.
